(** * Indirect-heating tank pump controller (Shelly script)

    A shallow embedding of [scripts/indirect_heating_tank_pump.shelly.js]
    together with the Shelly environment of its test suite, and the
    properties of the control decision, of the configuration merge and of
    the start-up sequence.

    JavaScript numbers are IEEE 754 binary64 values: they are Rocq's primitive
    floats, with the same addition and the same comparisons. *)

From Stdlib Require Import ZArith Floats.
From stdpp Require Import gmap strings list.

Local Open Scope string_scope.
Local Open Scope list_scope.

(** ** JavaScript numbers *)

Module Num.

(** [x >= y] and [x <= y] of JavaScript on two numbers; both are false as
    soon as one side is NaN, like [PrimFloat.leb]. *)
Definition ge (x y : float) : bool := PrimFloat.leb y x.
Definition le (x y : float) : bool := PrimFloat.leb x y.
Definition lt (x y : float) : bool := PrimFloat.ltb x y.
Definition add (x y : float) : float := PrimFloat.add x y.
Definition mul (x y : float) : float := PrimFloat.mul x y.

(** ToBoolean on a number: false for [+0], [-0] and NaN. *)
Definition truthy (x : float) : bool :=
  negb (PrimFloat.eqb x 0%float || PrimFloat.is_nan x).

(** Two numbers name the same property of an object when they print alike:
    equal numbers (the two zeros print alike), or NaN twice. *)
Definition same_key (x y : float) : bool :=
  PrimFloat.eqb x y || (PrimFloat.is_nan x && PrimFloat.is_nan y).

End Num.

Declare Scope num_scope.
Delimit Scope num_scope with num.
Infix ">=" := Num.ge : num_scope.
Infix "<=" := Num.le : num_scope.
Infix "<" := Num.lt : num_scope.
Infix "+" := Num.add : num_scope.
Infix "*" := Num.mul : num_scope.

(** ** Values held by configuration objects

    The values [JSON.parse] produces. *)

#[local] Unset Elimination Schemes.
Inductive value : Type :=
  | VNull
  | VBool (b : bool)
  | VNum (x : float)
  | VStr (s : string)
  | VArr (items : list value)
  | VObj (props : list (string * value)).
#[local] Set Elimination Schemes.

(** A plain object: property names to values. *)
Abbreviation obj := (gmap string value).

(** What [JSON.parse] returns on a text it accepts, as far as start-up tells
    the cases apart: [null], an object, or another value (a boolean, a number,
    a string or an array). *)
Inductive json : Type :=
  | JNull
  | JObject (o : obj)
  | JOther.

(** ToBoolean of a property read; [None] is [undefined]. *)
Definition truthy (v : option value) : bool :=
  match v with
  | None | Some VNull => false
  | Some (VBool b) => b
  | Some (VNum x) => Num.truthy x
  | Some (VStr s) => negb (String.eqb s "")
  | Some (VArr _) | Some (VObj _) => true
  end.

(** One source of [Object.assign]: each own property of the source is
    assigned to the target, a later value overwriting an earlier one. The
    assignment of ["__proto__"] reaches the setter every object inherits and
    creates no property, unless the target has a property of that name of its
    own. The prototype the setter may install shows only in reads of names
    that are not own properties; the script reads none. *)
Definition assign_from (target source : obj) : obj :=
  match target !! "__proto__" with
  | Some _ => source ∪ target
  | None => delete "__proto__" source ∪ target
  end.

(** [Object.assign(target, ...sources)], the sources from left to right. *)
Definition Object_assign (target : obj) (sources : list obj) : obj :=
  foldl assign_from target sources.

(** [Object.keys(o).length] *)
Definition Object_keys_length (o : obj) : nat := size o.

(** ** Script constants *)

Definition KVS_CONFIG_KEY : string := "indirect_heating_config".

Definition DEFAULT_CONFIG : obj :=
  <["scanInterval" := VNum 30]> (
  <["hotWaterTemperatureID" := VNum 100]> (
  <["heatingSourceTemperatureID" := VNum 101]> (
  <["maxWaterTemp" := VNum 65]> (
  <["waterPumpHysteresis" := VNum 7]> (
  <["waterPumpStopDifference" := VNum 5]> (
  <["debuggingOn" := VBool false]> ∅)))))).

(** The names the script reads from a configuration object. *)
Definition recognized : list string :=
  [ "scanInterval"; "hotWaterTemperatureID"; "heatingSourceTemperatureID";
    "maxWaterTemp"; "waterPumpHysteresis"; "waterPumpStopDifference";
    "debuggingOn" ].

(** A configuration whose fields have the types of [DEFAULT_CONFIG]: this
    is what [checkAndAdjust] computes with. *)
Record Config : Type := {
  scanInterval : float;
  hotWaterTemperatureID : float;
  heatingSourceTemperatureID : float;
  maxWaterTemp : float;
  waterPumpHysteresis : float;
  waterPumpStopDifference : float;
  debuggingOn : bool;
}.

Definition num_field (o : obj) (k : string) : option float :=
  match o !! k with Some (VNum x) => Some x | _ => None end.

Definition bool_field (o : obj) (k : string) : option bool :=
  match o !! k with Some (VBool b) => Some b | _ => None end.

(** Reading a configuration object at the types of the defaults; [None] when
    a field holds a value of another type. *)
Definition as_config (o : obj) : option Config :=
  si ← num_field o "scanInterval";
  hw ← num_field o "hotWaterTemperatureID";
  hs ← num_field o "heatingSourceTemperatureID";
  mx ← num_field o "maxWaterTemp";
  hy ← num_field o "waterPumpHysteresis";
  sd ← num_field o "waterPumpStopDifference";
  dbg ← bool_field o "debuggingOn";
  Some {| scanInterval := si; hotWaterTemperatureID := hw;
          heatingSourceTemperatureID := hs; maxWaterTemp := mx;
          waterPumpHysteresis := hy; waterPumpStopDifference := sd;
          debuggingOn := dbg |}.

(** ** The Shelly environment

    The state of the device as the test suite's environment keeps it
    ([mockState]), and the script's own global [CONFIG]. *)

(** One piece of a printed line: the script builds its messages by
    concatenating text and numbers. *)
Inductive piece : Type :=
  | Text (s : string)
  | Number (x : float).

Abbreviation message := (list piece).

(** An [Error] object; it prints as ["Error: "] followed by its message. *)
Record Error : Type := { error_message : message }.

Definition Error_toString (e : Error) : message :=
  Text "Error: " :: error_message e.

(** An entry of [shellyCallLog]: the method and its parameters. *)
Inductive call : Type :=
  | KVS_Get (key : string)
  | Switch_Set (id : Z) (on : bool).

(** What the [tC] field of a temperature status holds: a number, or [null]
    when the sensor gives no reading. *)
Definition reading : Type := option float.
Definition number (x : float) : reading := Some x.
Definition null : reading := None.

(** ToNumber, which the comparisons and the additions of the script apply to
    their operands: [null] counts as [+0]. *)
Definition ToNumber (r : reading) : float :=
  match r with
  | Some x => x
  | None => 0%float
  end.
Coercion ToNumber : reading >-> float.

(** A reading concatenated into a text: [null] prints as ["null"]. *)
Definition reading_piece (r : reading) : piece :=
  match r with
  | Some x => Number x
  | None => Text "null"
  end.

Record TemperatureStatus : Type := { tC : reading }.

Record TimerEntry : Type := { timeout : float; repeat : bool }.

Record State : Type := {
  switchStatus : bool;                              (* switchStatus.output *)
  temperatures : list (float * TemperatureStatus);  (* by sensor id *)
  kvs : gmap string string;
  shellyCallLog : list call;
  printLog : list message;
  timer : option TimerEntry;
  CONFIG : obj;
}.

Definition set_switchStatus (b : bool) (w : State) : State :=
  {| switchStatus := b; temperatures := temperatures w; kvs := kvs w;
     shellyCallLog := shellyCallLog w; printLog := printLog w;
     timer := timer w; CONFIG := CONFIG w |}.

Definition push_call (c : call) (w : State) : State :=
  {| switchStatus := switchStatus w; temperatures := temperatures w;
     kvs := kvs w; shellyCallLog := shellyCallLog w ++ [c];
     printLog := printLog w; timer := timer w; CONFIG := CONFIG w |}.

Definition push_print (m : message) (w : State) : State :=
  {| switchStatus := switchStatus w; temperatures := temperatures w;
     kvs := kvs w; shellyCallLog := shellyCallLog w;
     printLog := printLog w ++ [m]; timer := timer w; CONFIG := CONFIG w |}.

Definition set_timer (t : option TimerEntry) (w : State) : State :=
  {| switchStatus := switchStatus w; temperatures := temperatures w;
     kvs := kvs w; shellyCallLog := shellyCallLog w; printLog := printLog w;
     timer := t; CONFIG := CONFIG w |}.

Definition set_CONFIG (c : obj) (w : State) : State :=
  {| switchStatus := switchStatus w; temperatures := temperatures w;
     kvs := kvs w; shellyCallLog := shellyCallLog w; printLog := printLog w;
     timer := timer w; CONFIG := c |}.

(** [mockState.temperatures[id]] *)
Fixpoint lookup_temperature (id : float) (t : list (float * TemperatureStatus))
  : option TemperatureStatus :=
  match t with
  | [] => None
  | (k, st) :: rest =>
      if Num.same_key k id then Some st else lookup_temperature id rest
  end.

(** ** Computations of the script

    A statement runs on the state and returns normally, throws, or leaves
    the model: the last happens only where a configuration object is read
    whose fields do not have the types of the defaults. *)

Inductive outcome (A : Type) : Type :=
  | Return (a : A)
  | Throw (e : Error)
  | OutOfModel.
Arguments Return {A} a.
Arguments Throw {A} e.
Arguments OutOfModel {A}.

Definition M (A : Type) : Type := State → outcome A * State.

Definition ret {A} (a : A) : M A := λ w, (Return a, w).

Definition bind {A B} (m : M A) (f : A → M B) : M B := λ w,
  match m w with
  | (Return a, w') => f a w'
  | (Throw e, w') => (Throw e, w')
  | (OutOfModel, w') => (OutOfModel, w')
  end.

Declare Scope js_scope.
Delimit Scope js_scope with js.
Bind Scope js_scope with M.
Notation "x ← y ; z" := (bind y (λ x, z))
  (at level 20, y at level 100, z at level 200, only parsing) : js_scope.
Notation "y ;; z" := (bind y (λ _, z))
  (at level 100, z at level 200, only parsing, right associativity) : js_scope.
Local Open Scope js_scope.

Definition throw {A} (e : Error) : M A := λ w, (Throw e, w).

(** A step the embedding does not follow. *)
Definition out_of_model {A} : M A := λ w, (OutOfModel, w).

(** [try { body } catch (err) { handler }] *)
Definition try_catch {A} (body : M A) (handler : Error → M A) : M A := λ w,
  match body w with
  | (Throw e, w') => handler e w'
  | r => r
  end.

Definition get {A} (f : State → A) : M A := λ w, (Return (f w), w).
Definition modify (f : State → State) : M unit := λ w, (Return tt, f w).

(** The state a computation ends in. *)
Definition exec {A} (m : M A) (w : State) : State := snd (m w).

(** [a && b()]: the right operand runs only when the left one holds. *)
Definition and_then (a : bool) (b : M bool) : M bool :=
  if a then b else ret false.

(** *** The [Shelly], [Timer] and [print] globals of the test environment *)

Definition temperature_not_found (id : float) : Error :=
  {| error_message :=
       [Text "Mock Error: Temperature sensor with id "; Number id;
        Text " not found."] |}.

(** [Shelly.getComponentStatus('Temperature', id)] *)
Definition Shelly_getComponentStatus_Temperature (id : float)
  : M TemperatureStatus :=
  found ← get (λ w, lookup_temperature id (temperatures w));
  match found with
  | Some st => ret st
  | None => throw (temperature_not_found id)
  end.

(** [Shelly.getComponentStatus('Switch', 0).output] *)
Definition Shelly_getComponentStatus_Switch_output : M bool :=
  get switchStatus.

Record SwitchResult : Type := { was_on : bool }.
Record KVSResult : Type := { value_ : option string }.

(** [Shelly.call("Switch.Set", { id, on }, callback)]: the call is logged,
    the switch takes the value, and the callback runs at once with error
    code 0. *)
Definition Shelly_call_Switch_Set (id : Z) (on : bool)
    (callback : SwitchResult → Z → option string → M unit) : M unit :=
  modify (push_call (Switch_Set id on));;
  modify (set_switchStatus on);;
  callback {| was_on := negb on |} 0%Z None.

(** [Shelly.call("KVS.Get", { key }, callback)]: the call is logged and
    the callback is deferred with the stored text, or [null] when there is
    none or it is empty. Nothing else is scheduled before the deferred
    callback, so it runs here. *)
Definition Shelly_call_KVS_Get (key : string)
    (callback : KVSResult → Z → option string → M unit) : M unit :=
  modify (push_call (KVS_Get key));;
  if String.eqb key KVS_CONFIG_KEY then
    stored ← get (λ w, kvs w !! key);
    let value :=
      match stored with
      | Some s => if String.eqb s "" then None else Some s
      | None => None
      end in
    callback {| value_ := value |} 0%Z None
  else ret tt.

(** [Timer.set(timeout, repeat, callback)] *)
Definition Timer_set (timeout : float) (repeat : bool) : M unit :=
  modify (set_timer (Some {| timeout := timeout; repeat := repeat |})).

Definition print (m : message) : M unit := modify (push_print m).

(** ["text" + error_message], where the message may be [null]. *)
Definition text_of (em : option string) : piece :=
  Text (match em with Some s => s | None => "null" end).

(** *** The script *)

Definition debugLog (m : message) : M unit :=
  dbg ← get (λ w, truthy (CONFIG w !! "debuggingOn"));
  if dbg then print m else ret tt.

Definition waterPumpRunning : M bool :=
  Shelly_getComponentStatus_Switch_output.

Definition startWaterPump : M unit :=
  Shelly_call_Switch_Set 0 true (λ result error_code error_message,
    if negb (error_code =? 0)%Z then
      debugLog [Text "Error starting pump: "; text_of error_message]
    else
      debugLog [Text "Water pump was started successfully."]).

Definition stopWaterPump : M unit :=
  Shelly_call_Switch_Set 0 false (λ result error_code error_message,
    if negb (error_code =? 0)%Z then
      debugLog [Text "Error stopping pump: "; text_of error_message]
    else
      debugLog [Text "Water pump was stopped successfully."]).

Definition checkAndAdjust (config : Config) : M unit :=
  try_catch
    (hotStatus ← Shelly_getComponentStatus_Temperature
                   (hotWaterTemperatureID config);
     let hotWaterTemperature := tC hotStatus in
     sourceStatus ← Shelly_getComponentStatus_Temperature
                      (heatingSourceTemperatureID config);
     let heatingSourceTemperature := tC sourceStatus in
     debugLog [Text "Storage Tank Temp: "; reading_piece hotWaterTemperature;
               Text "°C, Heating Source Temp: ";
               reading_piece heatingSourceTemperature; Text "°C"];;
     (* Stop Condition 1: Maximum temperature reached. *)
     c1 ← and_then (hotWaterTemperature >= maxWaterTemp config)%num
            waterPumpRunning;
     if c1 then
       debugLog [Text "Storage tank at maximum temperature (";
                 reading_piece hotWaterTemperature;
                 Text "°C), stopping pump..."];;
       stopWaterPump
     else
       (* Stop Condition 2: Inefficient temperature difference. *)
       c2 ← and_then
              (heatingSourceTemperature
                 <= hotWaterTemperature + waterPumpStopDifference config)%num
              waterPumpRunning;
       if c2 then
         debugLog [Text "Temperature difference is too low, stopping pump for efficiency..."];;
         stopWaterPump
       else
         (* Start Condition: Heating source is sufficiently hotter. *)
         c3 ← and_then
                ((hotWaterTemperature < maxWaterTemp config)%num
                 && (heatingSourceTemperature
                       >= hotWaterTemperature + waterPumpHysteresis config)%num)
                (running ← waterPumpRunning; ret (negb running));
         if c3 then
           debugLog [Text "Heating source is hot enough, starting pump..."];;
           startWaterPump
         else ret tt)
    (λ err, debugLog (Text "Error: " :: Error_toString err)).

(** The merge of line 161: the defaults, then the loaded overrides. *)
Definition merge_config (loadedConfig : obj) : obj :=
  Object_assign ∅ [DEFAULT_CONFIG; loadedConfig].

(** The global [CONFIG] read at the types of the defaults. *)
Definition typed_CONFIG : M Config := λ w,
  match as_config (CONFIG w) with
  | Some c => (Return c, w)
  | None => (OutOfModel, w)
  end.

(** The timer's callback, [() => checkAndAdjust(CONFIG)]. *)
Definition timer_callback : M unit :=
  config ← typed_CONFIG;
  checkAndAdjust config.

Definition run : M unit :=
  stopWaterPump;;                       (* Initialize in a known state. *)
  config ← typed_CONFIG;
  checkAndAdjust config;;               (* Run a check immediately. *)
  Timer_set (scanInterval config * 1000)%num true.

(** The TypeError of [Object.keys(null)]. *)
Definition Object_keys_of_null : Error :=
  {| error_message := [Text "Cannot convert undefined or null to object"] |}.

Section Init.

(** [JSON.parse] on the text stored under the configuration key: the value
    it denotes, or [None] when it throws. *)
Variable JSON_parse : string → option json.

Definition init_callback (result : KVSResult) (error_code : Z)
    (error_message : option string) : M unit :=
  let loadedConfig : json :=
    match (error_code =? 0)%Z, value_ result with
    | true, Some text =>
        match JSON_parse text with
        | Some v => v
        | None => JObject ∅   (* Error parsing, loadedConfig remains empty. *)
        end
    | _, _ => JObject ∅
    end in
  match loadedConfig with
  | JObject loadedConfig =>
      modify (set_CONFIG (merge_config loadedConfig));;
      (if (0 <? Object_keys_length loadedConfig)%nat then
         debugLog [Text "Custom configuration loaded from KVS."]
       else
         debugLog [Text "No custom configuration found in KVS. Using default settings."]);;
      run
  | JNull =>
      (* [Object.assign] skips a [null] source; [Object.keys(null)] throws,
         outside any [try]. *)
      modify (set_CONFIG (Object_assign ∅ [DEFAULT_CONFIG]));;
      throw Object_keys_of_null
  | JOther => out_of_model
  end.

Definition init : M unit :=
  Shelly_call_KVS_Get KVS_CONFIG_KEY init_callback.

End Init.

(** ** The decision of one evaluation, read off the actuator

    The script has no value for its decision: it is the command that
    [checkAndAdjust] sends to the switch, if any. *)

Inductive PumpDecision : Type := Start | Stop | Hold.

(** The calls logged between two states. *)
Definition issued (before after : State) : list call :=
  drop (length (shellyCallLog before)) (shellyCallLog after).

Definition decision_of (calls : list call) : option PumpDecision :=
  match calls with
  | [] => Some Hold
  | [Switch_Set 0 true] => Some Start
  | [Switch_Set 0 false] => Some Stop
  | _ => None
  end.

Definition evaluate (config : Config) (w : State) : option PumpDecision :=
  decision_of (issued w (exec (checkAndAdjust config) w)).

(** ** Vocabulary of the statements *)

(** The rule [checkAndAdjust] applies to two readings and the state of the
    switch, as a function. *)
Definition decision_rule (config : Config) (tank source : float)
    (running : bool) : PumpDecision :=
  if (tank >= maxWaterTemp config)%num && running then Stop
  else if (source <= tank + waterPumpStopDifference config)%num && running
  then Stop
  else if (tank < maxWaterTemp config)%num
          && (source >= tank + waterPumpHysteresis config)%num
          && negb running
  then Start
  else Hold.

Definition commands_of (d : PumpDecision) : list call :=
  match d with
  | Start => [Switch_Set 0 true]
  | Stop => [Switch_Set 0 false]
  | Hold => []
  end.

Definition switch_after (d : PumpDecision) (running : bool) : bool :=
  match d with
  | Start => true
  | Stop => false
  | Hold => running
  end.

(** The state [debugLog] leaves. *)
Definition logged (m : message) (w : State) : State :=
  if truthy (CONFIG w !! "debuggingOn") then push_print m w else w.

(** The state [Switch.Set] leaves, its callback included. *)
Definition switched (on : bool) (w : State) : State :=
  logged [Text (if on then "Water pump was started successfully."
                else "Water pump was stopped successfully.")]
    (set_switchStatus on (push_call (Switch_Set 0 on) w)).

(** The line [checkAndAdjust] hands to [debugLog] when the read of sensor
    [id] throws: ["Error: " + err]. *)
Definition fault_line (id : float) : message :=
  Text "Error: " :: Error_toString (temperature_not_found id).

(** The sensor whose read throws: the tank's is read first. *)
Definition failing_sensor (config : Config) (w : State) : float :=
  match lookup_temperature (hotWaterTemperatureID config) (temperatures w) with
  | None => hotWaterTemperatureID config
  | Some _ => heatingSourceTemperatureID config
  end.

(** The names of an override that the script reads, and the others. *)
Definition is_recognized (p : string * value) : Prop := p.1 ∈ recognized.

#[export] Instance is_recognized_dec (p : string * value)
  : Decision (is_recognized p).
Proof. unfold is_recognized. apply _. Defined.

(** ** Configurations and states of the examples *)

Definition default_config : Config :=
  {| scanInterval := 30; hotWaterTemperatureID := 100;
     heatingSourceTemperatureID := 101; maxWaterTemp := 65;
     waterPumpHysteresis := 7; waterPumpStopDifference := 5;
     debuggingOn := false |}.

(** The state of a test: the switch, the two sensors of the default
    configuration, and [CONFIG] with debugging enabled as the tests have it. *)
Definition test_state (running : bool) (tank source : float) : State :=
  {| switchStatus := running;
     temperatures := [(100%float, {| tC := number tank |});
                      (101%float, {| tC := number source |})];
     kvs := ∅; shellyCallLog := []; printLog := []; timer := None;
     CONFIG := <["debuggingOn" := VBool true]> DEFAULT_CONFIG |}.

(** A configuration whose start gap is the number next above its stop gap
    of 5, written [5.000000000000001] in an override. *)
Definition narrow_band_config : Config :=
  {| scanInterval := 30; hotWaterTemperatureID := 100;
     heatingSourceTemperatureID := 101; maxWaterTemp := 65;
     waterPumpHysteresis := 0x1.4000000000001p+2;
     waterPumpStopDifference := 5;
     debuggingOn := false |}.

(** The state in which [narrow_band_config] oscillates: pump off, tank 40,
    source 45. *)
Definition narrow_band_state : State := test_state false 40 45.

(** A device with debugging enabled, the pump running, and no sensor under
    the id of the heating source. *)
Definition source_missing_state : State :=
  {| switchStatus := true;
     temperatures := [(100%float, {| tC := number 40 |})];
     kvs := ∅; shellyCallLog := [Switch_Set 0 true]; printLog := [];
     timer := None;
     CONFIG := <["debuggingOn" := VBool true]> DEFAULT_CONFIG |}.

(** The override of the test suite, [{ maxWaterTemp: 80, scanInterval: 60 }]. *)
Definition customConfig : obj :=
  <["maxWaterTemp" := VNum 80]> (<["scanInterval" := VNum 60]> ∅).

(** An override with one name the script does not read. *)
Definition commented_override : obj := {["comment" := VStr "boiler room"]}.

(** A parser that rejects the stored text. *)
Definition rejecting : string → option json := λ _, None.

(** A device whose store holds a truncated override. *)
Definition malformed_state : State :=
  {| switchStatus := true;
     temperatures := [(100%float, {| tC := number 40 |});
                      (101%float, {| tC := number 48 |})];
     kvs := {[ KVS_CONFIG_KEY := "{maxWaterTemp: 80, debuggingOn: tr" ]};
     shellyCallLog := []; printLog := []; timer := None; CONFIG := ∅ |}.

(** ** The assertions of the test suite

    [assertEquals] compares with [!==]; the values the tests pass are
    primitive. The name of the running test, a global of the test file, is
    a parameter here. *)

Inductive primitive : Type :=
  | PUndefined
  | PNull
  | PBoolean (b : bool)
  | PNumber (x : float)
  | PString (s : string).

(** [a === b] on primitives: same type and same value, NaN equal to
    nothing, the two zeros equal. *)
Definition strict_equal (a b : primitive) : bool :=
  match a, b with
  | PUndefined, PUndefined => true
  | PNull, PNull => true
  | PBoolean x, PBoolean y => Bool.eqb x y
  | PNumber x, PNumber y => PrimFloat.eqb x y
  | PString x, PString y => String.eqb x y
  | _, _ => false
  end.

(** A primitive inside a template string. *)
Definition shown (v : primitive) : piece :=
  match v with
  | PUndefined => Text "undefined"
  | PNull => Text "null"
  | PBoolean true => Text "true"
  | PBoolean false => Text "false"
  | PNumber x => Number x
  | PString s => Text s
  end.

Definition assertEquals (currentTestName : string)
    (expected actual : primitive) (message : string) : M unit :=
  if negb (strict_equal expected actual) then
    throw {| error_message :=
               [Text "'"; Text currentTestName; Text "' failed: ";
                Text message; Text ". Expected '"; shown expected;
                Text "', but got '"; shown actual; Text "'."] |}
  else ret tt.

Definition assertTrue (currentTestName : string) (actual : primitive)
    (message : string) : M unit :=
  assertEquals currentTestName (PBoolean true) actual message.

(** ** The timer firing

    [Timer.set(..., true, callback)] asks for the callback again and again;
    between two runs the sensors may have taken other values, which the
    test suite does by assigning [mockState.temperatures]. *)

Definition set_temperatures (t : list (float * TemperatureStatus))
    (w : State) : State :=
  {| switchStatus := switchStatus w; temperatures := t; kvs := kvs w;
     shellyCallLog := shellyCallLog w; printLog := printLog w;
     timer := timer w; CONFIG := CONFIG w |}.

(** One firing, on new sensor values. *)
Definition tick (readings : list (float * TemperatureStatus)) : M unit :=
  modify (set_temperatures readings);;
  timer_callback.

(** One firing for each table of sensor values, in order. *)
Fixpoint ticks (tables : list (list (float * TemperatureStatus))) : M unit :=
  match tables with
  | [] => ret tt
  | readings :: rest => tick readings;; ticks rest
  end.

(** A run of calls to switch 0 in which every call reverses the state the
    switch is in, starting from [running]. *)
Fixpoint alternating (running : bool) (calls : list call) : bool :=
  match calls with
  | [] => true
  | Switch_Set id on :: rest =>
      (id =? 0)%Z && Bool.eqb on (negb running) && alternating on rest
  | KVS_Get _ :: _ => false
  end.

(** The state of the switch after a run of calls, from [running]. *)
Fixpoint switch_after_calls (running : bool) (calls : list call) : bool :=
  match calls with
  | [] => running
  | Switch_Set _ on :: rest => switch_after_calls on rest
  | KVS_Get _ :: rest => switch_after_calls running rest
  end.

(** Three tables of sensor values: a cold tank and a hot source, then the
    tank at the maximum, then the source sensor gone. *)
Definition three_tables : list (list (float * TemperatureStatus)) :=
  [ [(100%float, {| tC := number 40 |}); (101%float, {| tC := number 60 |})];
    [(100%float, {| tC := number 65 |}); (101%float, {| tC := number 80 |})];
    [(100%float, {| tC := number 30 |})] ].

(** The decision of an evaluation in state [w]: the rule on the two
    readings, Hold when a read fails. *)
Definition decided (config : Config) (w : State) : PumpDecision :=
  match lookup_temperature (hotWaterTemperatureID config) (temperatures w),
        lookup_temperature (heatingSourceTemperatureID config) (temperatures w)
  with
  | Some tank, Some source =>
      decision_rule config (tC tank) (tC source) (switchStatus w)
  | _, _ => Hold
  end.

(** What an evaluation may change: it appends to the two logs and sets the
    switch; the sensors, the store, the timer and [CONFIG] stay. *)
Definition grows (w w' : State) : Prop :=
  temperatures w' = temperatures w
  ∧ CONFIG w' = CONFIG w
  ∧ kvs w' = kvs w
  ∧ timer w' = timer w
  ∧ (∃ calls, shellyCallLog w' = shellyCallLog w ++ calls)
  ∧ (∃ lines, printLog w' = printLog w ++ lines).

(** A computation keeps a relation when the state it ends in is related to
    the one it started from, however it ends. *)
Definition keeps (R : State → State → Prop) {A} (m : M A) : Prop :=
  ∀ w, R w (exec m w).

(** The print log only grows. *)
Definition prints_more (w w' : State) : Prop :=
  ∃ lines, printLog w' = printLog w ++ lines.

(** Whether the start condition holds on the readings of [w]; false when a
    read fails. *)
Definition start_wanted (config : Config) (w : State) : bool :=
  match lookup_temperature (hotWaterTemperatureID config) (temperatures w),
        lookup_temperature (heatingSourceTemperatureID config) (temperatures w)
  with
  | Some tank, Some source =>
      (tC tank < maxWaterTemp config)%num
      && (tC source >= tC tank + waterPumpHysteresis config)%num
  | _, _ => false
  end.

(** A device with debugging off and a history of calls and lines. *)
Definition silent_state (running : bool) (tank source : float) : State :=
  {| switchStatus := running;
     temperatures := [(100%float, {| tC := number tank |});
                      (101%float, {| tC := number source |})];
     kvs := {[ KVS_CONFIG_KEY := "{}" ]};
     shellyCallLog := [KVS_Get KVS_CONFIG_KEY; Switch_Set 0 false];
     printLog := [[Text "earlier line"]];
     timer := Some {| timeout := 30000; repeat := true |};
     CONFIG := DEFAULT_CONFIG |}.

(** The first line of an evaluation whose two reads succeed. *)
Definition readings_line (tank source : reading) : message :=
  [Text "Storage Tank Temp: "; reading_piece tank;
   Text "°C, Heating Source Temp: "; reading_piece source; Text "°C"].

(** The lines that follow the readings when debugging is on: the reason for
    the command and the confirmation of the switch; none on Hold. *)
Definition announcement (config : Config) (tank source : reading)
    (running : bool) : list message :=
  match decision_rule config tank source running with
  | Hold => []
  | Start =>
      [[Text "Heating source is hot enough, starting pump..."];
       [Text "Water pump was started successfully."]]
  | Stop =>
      [(if (tank >= maxWaterTemp config)%num
        then [Text "Storage tank at maximum temperature (";
              reading_piece tank;
              Text "°C), stopping pump..."]
        else [Text "Temperature difference is too low, stopping pump for efficiency..."]);
       [Text "Water pump was stopped successfully."]]
  end.

(** The line start-up hands to [debugLog] after the merge. *)
Definition loaded_line (loadedConfig : obj) : message :=
  [Text (if (0 <? Object_keys_length loadedConfig)%nat
         then "Custom configuration loaded from KVS."
         else "No custom configuration found in KVS. Using default settings.")].

(** What start-up takes for [loadedConfig]: the value the stored text
    denotes, and [{}] when the store answers [null] or the text does not
    parse. *)
Definition loaded (JSON_parse : string → option json) (w : State) : json :=
  match kvs w !! KVS_CONFIG_KEY with
  | Some text =>
      if String.eqb text "" then JObject ∅
      else default (JObject ∅) (JSON_parse text)
  | None => JObject ∅
  end.

(** An override that turns debugging on and raises the maximum. *)
Definition verbose_override : obj :=
  <["debuggingOn" := VBool true]> (<["maxWaterTemp" := VNum 70]> ∅).

(** A parser that knows one text, the one of [verbose_state]. *)
Definition parse_verbose : string → option json := λ text,
  if String.eqb text "verbose override" then Some (JObject verbose_override)
  else None.

(** A device whose store holds that text; tank 40, source 48, pump on. *)
Definition verbose_state : State :=
  {| switchStatus := true;
     temperatures := [(100%float, {| tC := number 40 |});
                      (101%float, {| tC := number 48 |})];
     kvs := {[ KVS_CONFIG_KEY := "verbose override" ]};
     shellyCallLog := []; printLog := []; timer := None; CONFIG := ∅ |}.

(** A device with nothing in its store. *)
Definition fresh_state : State :=
  {| switchStatus := true;
     temperatures := [(100%float, {| tC := number 40 |});
                      (101%float, {| tC := number 48 |})];
     kvs := ∅; shellyCallLog := []; printLog := []; timer := None;
     CONFIG := ∅ |}.

(** A device whose tank sensor gives no reading, [{ tC: null }], next to a
    source at 48; the pump is off and debugging is on. *)
Definition tank_unread_state : State :=
  {| switchStatus := false;
     temperatures := [(100%float, {| tC := null |});
                      (101%float, {| tC := number 48 |})];
     kvs := ∅; shellyCallLog := []; printLog := []; timer := None;
     CONFIG := <["debuggingOn" := VBool true]> DEFAULT_CONFIG |}.

(** A parser that knows the text [null]. *)
Definition parse_null : string → option json := λ text,
  if String.eqb text "null" then Some JNull else None.

(** A device whose store holds that text, with the pump left running. *)
Definition null_store_state : State :=
  {| switchStatus := true;
     temperatures := [(100%float, {| tC := number 40 |});
                      (101%float, {| tC := number 48 |})];
     kvs := {[ KVS_CONFIG_KEY := "null" ]};
     shellyCallLog := []; printLog := []; timer := None; CONFIG := ∅ |}.

(** * Properties *)

(** ** The scenarios of the test suite *)

Example scenario_start :
  evaluate default_config (test_state false 40 48) = Some Start.
Proof. vm_compute. reflexivity. Qed.

Example scenario_max_temperature :
  evaluate default_config (test_state true 65 80) = Some Stop.
Proof. vm_compute. reflexivity. Qed.

Example scenario_efficiency :
  evaluate default_config (test_state true 50 54) = Some Stop.
Proof. vm_compute. reflexivity. Qed.

Example scenario_nothing :
  evaluate default_config (test_state false 40 45) = Some Hold.
Proof. vm_compute. reflexivity. Qed.

Example scenario_start_log :
  printLog (exec (checkAndAdjust default_config) (test_state false 40 48))
  = [ [Text "Storage Tank Temp: "; Number 40;
       Text "°C, Heating Source Temp: "; Number 48; Text "°C"];
      [Text "Heating source is hot enough, starting pump..."];
      [Text "Water pump was started successfully."] ].
Proof. vm_compute. reflexivity. Qed.

(** ** The order of JavaScript numbers

    The comparisons, through their specification on [spec_float]. *)

Module NumFacts.

Import SpecFloat.

Ltac compare_cases :=
  repeat match goal with
    | H : context [Z.compare ?a ?b] |- _ =>
        destruct (Z.compare_spec a b); simpl in H; subst
    | H : context [Pos.compare_cont Eq ?a ?b] |- _ =>
        change (Pos.compare_cont Eq a b) with (Pos.compare a b) in H;
        destruct (Pos.compare_spec a b); simpl in H; subst
    | |- context [Z.compare ?a ?b] =>
        destruct (Z.compare_spec a b); simpl; subst
    | |- context [Pos.compare_cont Eq ?a ?b] =>
        change (Pos.compare_cont Eq a b) with (Pos.compare a b);
        destruct (Pos.compare_spec a b); simpl; subst
    end;
  try congruence; try lia.

Lemma SFltb_SFleb_false (x y : spec_float) :
  SFltb x y = true → SFleb y x = false.
Proof.
  unfold SFltb, SFleb.
  destruct x as [sx|sx| |sx mx ex], y as [sy|sy| |sy my ey];
    try destruct sx; try destruct sy; simpl; try congruence;
    intros H; compare_cases.
Qed.

Lemma SFleb_SFltb_trans (x y z : spec_float) :
  SFleb x y = true → SFltb y z = true → SFltb x z = true.
Proof.
  unfold SFltb, SFleb.
  destruct x as [sx|sx| |sx mx ex], y as [sy|sy| |sy my ey],
           z as [sz|sz| |sz mz ez];
    try destruct sx; try destruct sy; try destruct sz; simpl;
    try congruence; intros H1 H2; compare_cases.
Qed.

Lemma lt_not_ge (x y : float) : Num.lt x y = true → Num.ge x y = false.
Proof.
  unfold Num.lt, Num.ge. rewrite ltb_spec, leb_spec.
  apply SFltb_SFleb_false.
Qed.

Lemma ge_not_lt (x y : float) : Num.ge x y = true → Num.lt x y = false.
Proof.
  intros H. destruct (Num.lt x y) eqn:E; [|reflexivity].
  apply lt_not_ge in E. congruence.
Qed.

Lemma lt_irrefl (x : float) : Num.lt x x = false.
Proof.
  destruct (Num.lt x x) eqn:E; [|reflexivity].
  pose proof (lt_not_ge _ _ E) as G. revert E G.
  unfold Num.lt, Num.ge. rewrite ltb_spec, leb_spec.
  unfold SFltb, SFleb. destruct (SFcompare _ _) as [[]|]; congruence.
Qed.

(** No number lies at or below a threshold and at or above a strictly
    larger one. *)
Lemma le_lt_ge_absurd (s a b : float) :
  Num.le s a = true → Num.lt a b = true → Num.ge s b = true → False.
Proof.
  unfold Num.le, Num.lt, Num.ge.
  rewrite ltb_spec, !leb_spec. intros H1 H2 H3.
  pose proof (SFleb_SFltb_trans _ _ _ H1 H2) as H4.
  apply SFltb_SFleb_false in H4. congruence.
Qed.

End NumFacts.

(** ** One evaluation, case by case *)

Lemma issued_same (w w' : State) :
  shellyCallLog w' = shellyCallLog w → issued w w' = [].
Proof. intros E. unfold issued. rewrite E. apply drop_all. Qed.

Lemma issued_app (w w' : State) (cs : list call) :
  shellyCallLog w' = shellyCallLog w ++ cs → issued w w' = cs.
Proof. intros E. unfold issued. rewrite E. apply drop_app_length. Qed.

Lemma decision_of_commands (d : PumpDecision) : decision_of (commands_of d) = Some d.
Proof. destruct d; reflexivity. Qed.

Lemma debugLog_run (m : message) (w : State) :
  debugLog m w = (Return tt, logged m w).
Proof.
  unfold debugLog, logged, bind, get, print, modify, ret.
  destruct (truthy _); reflexivity.
Qed.

Lemma stopWaterPump_run (w : State) :
  stopWaterPump w = (Return tt, switched false w).
Proof.
  unfold stopWaterPump, Shelly_call_Switch_Set, bind, modify. simpl.
  apply debugLog_run.
Qed.

Lemma startWaterPump_run (w : State) :
  startWaterPump w = (Return tt, switched true w).
Proof.
  unfold startWaterPump, Shelly_call_Switch_Set, bind, modify. simpl.
  apply debugLog_run.
Qed.

Lemma read_temperature_run (id : float) (w : State) :
  Shelly_getComponentStatus_Temperature id w
  = match lookup_temperature id (temperatures w) with
    | Some st => (Return st, w)
    | None => (Throw (temperature_not_found id), w)
    end.
Proof.
  unfold Shelly_getComponentStatus_Temperature, bind, get. simpl.
  now destruct (lookup_temperature id (temperatures w)).
Qed.

Lemma waterPumpRunning_run (w : State) :
  waterPumpRunning w = (Return (switchStatus w), w).
Proof. reflexivity. Qed.

(** [debugLog] touches the print log only. *)
Lemma logged_frame (m : message) (w : State) :
  shellyCallLog (logged m w) = shellyCallLog w
  ∧ switchStatus (logged m w) = switchStatus w
  ∧ temperatures (logged m w) = temperatures w
  ∧ CONFIG (logged m w) = CONFIG w
  ∧ kvs (logged m w) = kvs w
  ∧ timer (logged m w) = timer w.
Proof. unfold logged. destruct (truthy _); simpl; tauto. Qed.

Lemma switched_frame (on : bool) (w : State) :
  shellyCallLog (switched on w) = shellyCallLog w ++ [Switch_Set 0 on]
  ∧ switchStatus (switched on w) = on
  ∧ temperatures (switched on w) = temperatures w
  ∧ CONFIG (switched on w) = CONFIG w
  ∧ kvs (switched on w) = kvs w
  ∧ timer (switched on w) = timer w.
Proof.
  unfold switched.
  match goal with
  | |- context [logged ?m ?w1] =>
      destruct (logged_frame m w1) as (-> & -> & -> & -> & -> & ->)
  end.
  simpl. tauto.
Qed.

Ltac frames :=
  repeat match goal with
    | |- context [logged ?m ?w] =>
        let H := fresh in
        pose proof (logged_frame m w) as H;
        destruct H as (? & ? & ? & ? & ? & ?);
        generalize dependent (logged m w); intros
    | |- context [switched ?b ?w] =>
        let H := fresh in
        pose proof (switched_frame b w) as H;
        destruct H as (? & ? & ? & ? & ? & ?);
        generalize dependent (switched b w); intros
    end.

Section Evaluation.

Variable config : Config.
Variable w : State.
Variables tank source : TemperatureStatus.
Hypothesis tank_read :
  lookup_temperature (hotWaterTemperatureID config) (temperatures w)
  = Some tank.
Hypothesis source_read :
  lookup_temperature (heatingSourceTemperatureID config) (temperatures w)
  = Some source.

Let d := decision_rule config (tC tank) (tC source) (switchStatus w).

Lemma checkAndAdjust_effect :
  ∃ w', checkAndAdjust config w = (Return tt, w')
    ∧ shellyCallLog w' = shellyCallLog w ++ commands_of d
    ∧ switchStatus w' = switch_after d (switchStatus w)
    ∧ temperatures w' = temperatures w
    ∧ CONFIG w' = CONFIG w
    ∧ kvs w' = kvs w
    ∧ timer w' = timer w.
Proof.
  subst d. unfold decision_rule, checkAndAdjust, try_catch, bind, and_then,
    ret.
  rewrite read_temperature_run, tank_read, read_temperature_run,
    source_read, debugLog_run.
  set (w1 := logged _ w).
  destruct (logged_frame
              [Text "Storage Tank Temp: "; reading_piece (tC tank);
               Text "°C, Heating Source Temp: "; reading_piece (tC source);
               Text "°C"] w) as (Hlog & Hrun & Htemp & Hcfg & Hkvs & Htim).
  fold w1 in Hlog, Hrun, Htemp, Hcfg, Hkvs, Htim. clearbody w1.
  destruct (tC tank >= maxWaterTemp config)%num;
    destruct (tC source <= tC tank + waterPumpStopDifference config)%num;
    destruct (tC tank < maxWaterTemp config)%num;
    destruct (tC source >= tC tank + waterPumpHysteresis config)%num;
    rewrite ?waterPumpRunning_run, ?Hrun; simpl;
    destruct (switchStatus w) eqn:Hsw; simpl;
    rewrite ?debugLog_run, ?stopWaterPump_run, ?startWaterPump_run,
      ?waterPumpRunning_run, ?Hrun, ?Hsw;
    simpl;
    rewrite ?debugLog_run, ?stopWaterPump_run, ?startWaterPump_run;
    simpl;
    (eexists; split; [reflexivity|]); frames; simpl;
    rewrite ?app_nil_r; repeat split; congruence.
Qed.

Lemma evaluate_decision_rule : evaluate config w = Some d.
Proof.
  unfold evaluate, exec.
  destruct checkAndAdjust_effect as (w' & -> & Hlog & _). simpl.
  rewrite (issued_app _ _ _ Hlog). apply decision_of_commands.
Qed.

End Evaluation.

(** ** Sensor faults *)

Lemma checkAndAdjust_fault (config : Config) (w : State) :
  lookup_temperature (hotWaterTemperatureID config) (temperatures w) = None
  ∨ lookup_temperature (heatingSourceTemperatureID config) (temperatures w)
    = None →
  checkAndAdjust config w
  = (Return tt, logged (fault_line (failing_sensor config w)) w).
Proof.
  intros Hfault.
  unfold failing_sensor, checkAndAdjust, try_catch, bind.
  rewrite read_temperature_run.
  destruct (lookup_temperature (hotWaterTemperatureID config) _) as [hot|].
  - destruct Hfault as [Hfault|Hfault]; [discriminate|].
    rewrite read_temperature_run, Hfault. apply debugLog_run.
  - apply debugLog_run.
Qed.

Lemma logged_printLog (m : message) (w : State) :
  printLog (logged m w)
  = if truthy (CONFIG w !! "debuggingOn") then printLog w ++ [m]
    else printLog w.
Proof. unfold logged. destruct (truthy _); reflexivity. Qed.

(** C1. A sensor that gives no reading answers [{ tC: null }], and the read
    does not throw. With the tank sensor in that state, the source at 48 and
    the pump off, the evaluation on the default thresholds counts the missing
    reading as 0: [null < 65] and [48 >= null + 7] both hold, and the pump
    is started. *)
Theorem null_reading_starts_pump :
  lookup_temperature (hotWaterTemperatureID default_config)
    (temperatures tank_unread_state) = Some {| tC := null |}
  ∧ evaluate default_config tank_unread_state = Some Start
  ∧ shellyCallLog (exec (checkAndAdjust default_config) tank_unread_state)
    = [Switch_Set 0 true]
  ∧ switchStatus (exec (checkAndAdjust default_config) tank_unread_state)
    = true
  ∧ printLog (exec (checkAndAdjust default_config) tank_unread_state)
    = [[Text "Storage Tank Temp: "; Text "null";
        Text "°C, Heating Source Temp: "; Number 48; Text "°C"];
       [Text "Heating source is hot enough, starting pump..."];
       [Text "Water pump was started successfully."]].
Proof. repeat split; vm_compute; reflexivity. Qed.

(** ** The decision on two successful readings *)

(** C2. Whatever the configuration, the two readings and the state of the
    pump, an evaluation in which the tank is at or above [maxWaterTemp] does
    not start the pump: the decision is not Start and no [Switch.Set] with
    [on: true] is sent. The same holds for a tank reading equal to
    [maxWaterTemp], the start branch comparing with a strict [<]. *)
Theorem never_starts_at_max (config : Config) (w : State)
    (tank source : TemperatureStatus) :
  lookup_temperature (hotWaterTemperatureID config) (temperatures w)
  = Some tank →
  lookup_temperature (heatingSourceTemperatureID config) (temperatures w)
  = Some source →
  (tC tank >= maxWaterTemp config)%num = true
  ∨ tC tank = number (maxWaterTemp config) →
  evaluate config w ≠ Some Start
  ∧ ¬ In (Switch_Set 0 true) (issued w (exec (checkAndAdjust config) w)).
Proof.
  intros Htank Hsource Hmax.
  assert (Hlt : (tC tank < maxWaterTemp config)%num = false).
  { destruct Hmax as [Hge|Heq].
    - now apply NumFacts.ge_not_lt.
    - rewrite Heq. apply NumFacts.lt_irrefl. }
  assert (Hd : decision_rule config (tC tank) (tC source) (switchStatus w)
               ≠ Start).
  { unfold decision_rule. rewrite Hlt. simpl.
    repeat destruct (_ && _); discriminate. }
  split.
  - rewrite (evaluate_decision_rule _ _ _ _ Htank Hsource). congruence.
  - destruct (checkAndAdjust_effect _ _ _ _ Htank Hsource)
      as (w' & Hrun & Hlog & _).
    unfold exec. rewrite Hrun. simpl. rewrite (issued_app _ _ _ Hlog).
    destruct (decision_rule _ _ _ _); simpl; [congruence| |tauto].
    intros [H|[]]. discriminate.
Qed.

Lemma never_starts_at_max_witness :
  evaluate default_config (test_state false 65 90) ≠ Some Start
  ∧ ¬ In (Switch_Set 0 true)
        (issued (test_state false 65 90)
           (exec (checkAndAdjust default_config) (test_state false 65 90))).
Proof.
  apply (never_starts_at_max default_config (test_state false 65 90)
           {| tC := number 65 |} {| tC := number 90 |});
    [reflexivity | reflexivity | left; reflexivity].
Defined.

(** C3. With the tank at or above [maxWaterTemp] and the pump running, the
    decision is Stop, whatever the source reading. *)
Theorem max_temperature_cutoff (config : Config) (w : State)
    (tank source : TemperatureStatus) :
  lookup_temperature (hotWaterTemperatureID config) (temperatures w)
  = Some tank →
  lookup_temperature (heatingSourceTemperatureID config) (temperatures w)
  = Some source →
  (tC tank >= maxWaterTemp config)%num = true →
  switchStatus w = true →
  evaluate config w = Some Stop.
Proof.
  intros Htank Hsource Hmax Hrun.
  rewrite (evaluate_decision_rule _ _ _ _ Htank Hsource).
  unfold decision_rule. now rewrite Hmax, Hrun.
Qed.

Lemma max_temperature_cutoff_witness :
  evaluate default_config (test_state true 65 80) = Some Stop.
Proof.
  apply (max_temperature_cutoff default_config (test_state true 65 80)
           {| tC := number 65 |} {| tC := number 80 |}); reflexivity.
Defined.

(** C5. With the tank below [maxWaterTemp], the pump stopped and the source
    at or above the tank reading plus [waterPumpHysteresis], the decision is
    Start. *)
Theorem start_condition (config : Config) (w : State)
    (tank source : TemperatureStatus) :
  lookup_temperature (hotWaterTemperatureID config) (temperatures w)
  = Some tank →
  lookup_temperature (heatingSourceTemperatureID config) (temperatures w)
  = Some source →
  (tC tank < maxWaterTemp config)%num = true →
  switchStatus w = false →
  (tC source >= tC tank + waterPumpHysteresis config)%num = true →
  evaluate config w = Some Start.
Proof.
  intros Htank Hsource Hlt Hrun Hgap.
  rewrite (evaluate_decision_rule _ _ _ _ Htank Hsource).
  unfold decision_rule. rewrite Hlt, Hrun, Hgap.
  now rewrite !andb_false_r.
Qed.

Lemma start_condition_witness :
  evaluate default_config (test_state false 40 48) = Some Start.
Proof.
  apply (start_condition default_config (test_state false 40 48)
           {| tC := number 40 |} {| tC := number 48 |}); reflexivity.
Defined.

(** C6. With the pump running and the source at or below the tank reading
    plus [waterPumpStopDifference], the decision is Stop, by the first or by
    the second stop condition. *)
Theorem efficiency_cutoff (config : Config) (w : State)
    (tank source : TemperatureStatus) :
  lookup_temperature (hotWaterTemperatureID config) (temperatures w)
  = Some tank →
  lookup_temperature (heatingSourceTemperatureID config) (temperatures w)
  = Some source →
  switchStatus w = true →
  (tC source <= tC tank + waterPumpStopDifference config)%num = true →
  evaluate config w = Some Stop.
Proof.
  intros Htank Hsource Hrun Hgap.
  rewrite (evaluate_decision_rule _ _ _ _ Htank Hsource).
  unfold decision_rule. rewrite Hrun, Hgap.
  now destruct (tC tank >= maxWaterTemp config)%num.
Qed.

Lemma efficiency_cutoff_witness :
  evaluate default_config (test_state true 50 54) = Some Stop.
Proof.
  apply (efficiency_cutoff default_config (test_state true 50 54)
           {| tC := number 50 |} {| tC := number 54 |}); reflexivity.
Defined.

(** ** Two evaluations in a row *)

Example narrow_band_gap :
  waterPumpHysteresis narrow_band_config = PrimFloat.next_up 5
  ∧ (40 + waterPumpHysteresis narrow_band_config)%num = 45%float
  ∧ (40 + waterPumpStopDifference narrow_band_config)%num = 45%float.
Proof. repeat split; vm_compute; reflexivity. Qed.

(** With [waterPumpStopDifference < waterPumpHysteresis], tank 40 and source
    45, the first evaluation starts the pump and the second one, on the same
    readings, stops it: both gaps added to 40 round to 45. *)
Lemma hysteresis_order_oscillates :
  (waterPumpStopDifference narrow_band_config
     < waterPumpHysteresis narrow_band_config)%num = true
  ∧ evaluate narrow_band_config narrow_band_state = Some Start
  ∧ switchStatus (exec (checkAndAdjust narrow_band_config) narrow_band_state)
    = true
  ∧ temperatures (exec (checkAndAdjust narrow_band_config) narrow_band_state)
    = temperatures narrow_band_state
  ∧ evaluate narrow_band_config
      (exec (checkAndAdjust narrow_band_config) narrow_band_state)
    = Some Stop.
Proof. repeat split; vm_compute; reflexivity. Qed.

(** C4, amended. When the two thresholds the script computes from the tank
    reading are strictly ordered, tank + [waterPumpStopDifference] below
    tank + [waterPumpHysteresis], an evaluation that starts (or stops) the
    pump is followed, on the same readings and the pump state it left, by
    an evaluation that holds. *)
Theorem no_oscillation (config : Config) (w : State)
    (tank source : TemperatureStatus) :
  lookup_temperature (hotWaterTemperatureID config) (temperatures w)
  = Some tank →
  lookup_temperature (heatingSourceTemperatureID config) (temperatures w)
  = Some source →
  (tC tank + waterPumpStopDifference config
     < tC tank + waterPumpHysteresis config)%num = true →
  let w' := exec (checkAndAdjust config) w in
  temperatures w' = temperatures w
  ∧ (evaluate config w = Some Start →
     switchStatus w' = true ∧ evaluate config w' = Some Hold)
  ∧ (evaluate config w = Some Stop →
     switchStatus w' = false ∧ evaluate config w' = Some Hold).
Proof.
  intros Htank Hsource Hband w'.
  destruct (checkAndAdjust_effect _ _ _ _ Htank Hsource)
    as (w1 & Hrun & _ & Hsw & Htemp & _).
  assert (Hw' : w' = w1) by (subst w'; unfold exec; now rewrite Hrun).
  rewrite Hw'. clear Hw' w' Hrun.
  rewrite (evaluate_decision_rule _ _ _ _ Htank Hsource).
  rewrite <- Htemp in Htank, Hsource.
  rewrite (evaluate_decision_rule _ _ _ _ Htank Hsource), Hsw.
  split; [exact Htemp|].
  unfold decision_rule.
  destruct (tC tank >= maxWaterTemp config)%num eqn:Hge;
    destruct (tC source <= tC tank + waterPumpStopDifference config)%num
      eqn:Hle;
    destruct (tC tank < maxWaterTemp config)%num eqn:Hlt;
    destruct (tC source >= tC tank + waterPumpHysteresis config)%num eqn:Hgap;
    destruct (switchStatus w); simpl;
    try (apply NumFacts.lt_not_ge in Hlt; congruence);
    try (exfalso; exact (NumFacts.le_lt_ge_absurd _ _ _ Hle Hband Hgap));
    (split; intros H; try discriminate H; split; reflexivity).
Qed.

Lemma no_oscillation_witness :
  evaluate default_config (test_state false 40 48) = Some Start
  ∧ switchStatus (exec (checkAndAdjust default_config)
                    (test_state false 40 48)) = true
  ∧ evaluate default_config
      (exec (checkAndAdjust default_config) (test_state false 40 48))
    = Some Hold.
Proof.
  destruct (no_oscillation default_config (test_state false 40 48)
              {| tC := number 40 |} {| tC := number 48 |})
    as (_ & Hstart & _); [reflexivity | reflexivity | reflexivity |].
  split; [reflexivity|]. apply Hstart. reflexivity.
Defined.

(** ** The configuration merge *)

Lemma DEFAULT_CONFIG_no_proto : DEFAULT_CONFIG !! "__proto__" = None.
Proof. vm_compute. reflexivity. Qed.

Lemma merge_config_union (loadedConfig : obj) :
  merge_config loadedConfig = delete "__proto__" loadedConfig ∪ DEFAULT_CONFIG.
Proof.
  unfold merge_config, Object_assign. simpl.
  assert (H : assign_from ∅ DEFAULT_CONFIG = DEFAULT_CONFIG).
  { unfold assign_from. rewrite lookup_empty, (right_id_L ∅ (∪)).
    apply delete_id, DEFAULT_CONFIG_no_proto. }
  rewrite H. unfold assign_from. now rewrite DEFAULT_CONFIG_no_proto.
Qed.

(** A property of the merge is the override's when there is one to copy,
    and the default otherwise. *)
Lemma merge_config_lookup (loadedConfig : obj) (k : string) :
  merge_config loadedConfig !! k
  = match delete "__proto__" loadedConfig !! k with
    | Some v => Some v
    | None => DEFAULT_CONFIG !! k
    end.
Proof.
  rewrite merge_config_union, lookup_union.
  destruct (delete "__proto__" loadedConfig !! k), (DEFAULT_CONFIG !! k);
    reflexivity.
Qed.

Lemma recognized_not_proto (k : string) : k ∈ recognized → k ≠ "__proto__".
Proof.
  intros Hk ->. unfold recognized in Hk.
  rewrite !elem_of_cons, elem_of_nil in Hk. intuition discriminate.
Qed.

Lemma merge_config_lookup_recognized (loadedConfig : obj) (k : string) :
  k ∈ recognized →
  merge_config loadedConfig !! k
  = match loadedConfig !! k with
    | Some v => Some v
    | None => DEFAULT_CONFIG !! k
    end.
Proof.
  intros Hk. rewrite merge_config_lookup, lookup_delete_ne; [reflexivity|].
  intros E. now apply (recognized_not_proto k).
Qed.

Lemma DEFAULT_CONFIG_recognized (k : string) :
  k ∉ recognized → DEFAULT_CONFIG !! k = None.
Proof.
  unfold recognized, DEFAULT_CONFIG. intros Hk.
  repeat (rewrite lookup_insert_ne;
          [|intros <-; apply Hk; repeat constructor]).
  apply lookup_empty.
Qed.

Lemma merge_config_empty : merge_config ∅ = DEFAULT_CONFIG.
Proof.
  rewrite merge_config_union, delete_empty. apply (left_id_L ∅ (∪)).
Qed.

Lemma as_config_DEFAULT_CONFIG : as_config DEFAULT_CONFIG = Some default_config.
Proof. vm_compute. reflexivity. Qed.

Lemma DEFAULT_CONFIG_quiet : truthy (DEFAULT_CONFIG !! "debuggingOn") = false.
Proof. vm_compute. reflexivity. Qed.

(** C7. Merging no override gives the defaults, field for field:
    scanInterval 30, maxWaterTemp 65, waterPumpHysteresis 7,
    waterPumpStopDifference 5, debuggingOn false, and two distinct sensor
    ids. Merging [{ maxWaterTemp: 80, scanInterval: 60 }] gives those two
    fields overridden and every other field at its default. *)
Theorem merge_config_defaults_and_overrides :
  merge_config ∅ = DEFAULT_CONFIG
  ∧ as_config (merge_config ∅) = Some default_config
  ∧ merge_config ∅ !! "scanInterval" = Some (VNum 30)
  ∧ merge_config ∅ !! "maxWaterTemp" = Some (VNum 65)
  ∧ merge_config ∅ !! "waterPumpHysteresis" = Some (VNum 7)
  ∧ merge_config ∅ !! "waterPumpStopDifference" = Some (VNum 5)
  ∧ merge_config ∅ !! "debuggingOn" = Some (VBool false)
  ∧ merge_config ∅ !! "hotWaterTemperatureID" = Some (VNum 100)
  ∧ merge_config ∅ !! "heatingSourceTemperatureID" = Some (VNum 101)
  ∧ Num.same_key 100 101 = false
  ∧ merge_config customConfig
    = <["maxWaterTemp" := VNum 80]> (<["scanInterval" := VNum 60]>
        DEFAULT_CONFIG)
  ∧ as_config (merge_config customConfig)
    = Some {| scanInterval := 60; hotWaterTemperatureID := 100;
              heatingSourceTemperatureID := 101; maxWaterTemp := 80;
              waterPumpHysteresis := 7; waterPumpStopDifference := 5;
              debuggingOn := false |}
  ∧ delete "maxWaterTemp" (delete "scanInterval" (merge_config customConfig))
    = delete "maxWaterTemp" (delete "scanInterval" DEFAULT_CONFIG).
Proof. repeat split; vm_compute; reflexivity. Qed.

(** An override with one name the script does not read: the merged object
    keeps the property, so it differs from the merge of the override
    without it. *)
Lemma unrecognized_name_is_kept :
  filter is_recognized commented_override = ∅
  ∧ merge_config commented_override !! "comment" = Some (VStr "boiler room")
  ∧ merge_config (filter is_recognized commented_override) !! "comment" = None
  ∧ merge_config commented_override
    ≠ merge_config (filter is_recognized commented_override).
Proof.
  assert (H1 : merge_config commented_override !! "comment"
               = Some (VStr "boiler room")) by (vm_compute; reflexivity).
  assert (H2 : merge_config (filter is_recognized commented_override)
                 !! "comment" = None) by (vm_compute; reflexivity).
  split; [vm_compute; reflexivity|].
  split; [exact H1|]. split; [exact H2|].
  intros E. rewrite E in H1. congruence.
Qed.

(** C8, amended. The names of an override that the script does not read
    change nothing it reads: the recognized properties of the merged object
    are those of the merge of the override without its unrecognized
    entries, and the configuration read from both is the same. Such a name
    may itself appear in the merged object. *)
Theorem unrecognized_names_have_no_effect (overrides : obj) :
  filter is_recognized (merge_config overrides)
  = merge_config (filter is_recognized overrides)
  ∧ as_config (merge_config overrides)
    = as_config (merge_config (filter is_recognized overrides)).
Proof.
  assert (Hrec : ∀ k, k ∈ recognized →
            merge_config overrides !! k
            = merge_config (filter is_recognized overrides) !! k).
  { intros k Hk. rewrite !merge_config_lookup_recognized by exact Hk.
    rewrite map_lookup_filter.
    destruct (overrides !! k) as [v|]; simpl; [|reflexivity].
    rewrite option_guard_True by exact Hk. reflexivity. }
  split.
  - apply map_eq. intros k. rewrite map_lookup_filter.
    destruct (decide (k ∈ recognized)) as [Hk|Hk].
    + rewrite <- (Hrec k Hk).
      destruct (merge_config overrides !! k); simpl; [|reflexivity].
      rewrite option_guard_True by exact Hk. reflexivity.
    + assert (Hnone : merge_config (filter is_recognized overrides) !! k
                      = None).
      { rewrite merge_config_lookup, (DEFAULT_CONFIG_recognized k Hk),
          lookup_delete.
        case_decide; [reflexivity|].
        rewrite map_lookup_filter.
        destruct (overrides !! k); simpl; [|reflexivity].
        rewrite option_guard_False by exact Hk. reflexivity. }
      rewrite Hnone.
      destruct (merge_config overrides !! k); simpl; [|reflexivity].
      rewrite option_guard_False by exact Hk. reflexivity.
  - unfold as_config, num_field, bool_field.
    rewrite !Hrec by (unfold recognized; set_solver). reflexivity.
Qed.

(** ** Start-up *)

Lemma logged_off (m : message) (w : State) :
  truthy (CONFIG w !! "debuggingOn") = false → logged m w = w.
Proof. unfold logged. now intros ->. Qed.

Lemma logged_CONFIG (m : message) (w : State) :
  CONFIG (logged m w) = CONFIG w.
Proof. apply logged_frame. Qed.

(** Every evaluation returns normally; it only appends to the call log and
    leaves [CONFIG] alone, and with debugging off it prints nothing. *)
Lemma checkAndAdjust_returns (config : Config) (w : State) :
  ∃ w' cs, checkAndAdjust config w = (Return tt, w')
    ∧ shellyCallLog w' = shellyCallLog w ++ cs
    ∧ CONFIG w' = CONFIG w
    ∧ (truthy (CONFIG w !! "debuggingOn") = false → printLog w' = printLog w).
Proof.
  destruct (lookup_temperature (hotWaterTemperatureID config) (temperatures w))
    as [tank|] eqn:Htank;
    [destruct (lookup_temperature (heatingSourceTemperatureID config)
                 (temperatures w)) as [source|] eqn:Hsource|].
  - destruct (checkAndAdjust_effect _ _ _ _ Htank Hsource)
      as (w' & Hrun & Hlog & _ & _ & Hcfg & _).
    exists w', (commands_of
                  (decision_rule config (tC tank) (tC source) (switchStatus w))).
    repeat split; try assumption.
    intros Hoff. revert Hrun.
    unfold checkAndAdjust, try_catch, bind, and_then, ret.
    rewrite read_temperature_run, Htank, read_temperature_run, Hsource,
      debugLog_run, (logged_off _ _ Hoff).
    repeat (rewrite ?waterPumpRunning_run, ?debugLog_run, ?stopWaterPump_run,
              ?startWaterPump_run; unfold switched;
            rewrite ?logged_off
              by (simpl; repeat (rewrite logged_CONFIG; simpl); exact Hoff);
            match goal with
            | |- context [if ?b then _ else _] => destruct b
            | _ => idtac
            end; simpl);
      intros [= <-]; reflexivity.
  - rewrite (checkAndAdjust_fault config w) by now right.
    eexists _, []. rewrite app_nil_r.
    destruct (logged_frame (fault_line (failing_sensor config w)) w)
      as (Hlog & _ & _ & Hcfg & _).
    repeat split; try assumption.
    intros Hoff. now rewrite (logged_off _ _ Hoff).
  - rewrite (checkAndAdjust_fault config w) by now left.
    eexists _, []. rewrite app_nil_r.
    destruct (logged_frame (fault_line (failing_sensor config w)) w)
      as (Hlog & _ & _ & Hcfg & _).
    repeat split; try assumption.
    intros Hoff. now rewrite (logged_off _ _ Hoff).
Qed.

(** [run] continues from the state its [Switch.Set] with [on: false] left. *)
Lemma run_from_stopped (w : State) :
  run w
  = (config ← typed_CONFIG;
     checkAndAdjust config;;
     Timer_set (scanInterval config * 1000)%num true) (switched false w).
Proof. unfold run, bind at 1. now rewrite stopWaterPump_run. Qed.

Lemma run_effect (w : State) :
  ∃ tail,
    shellyCallLog (exec run w) = shellyCallLog w ++ Switch_Set 0 false :: tail
    ∧ CONFIG (exec run w) = CONFIG w
    ∧ (truthy (CONFIG w !! "debuggingOn") = false →
       printLog (exec run w) = printLog w)
    ∧ (∀ c, as_config (CONFIG w) = Some c →
       fst (run w) = Return tt
       ∧ timer (exec run w)
         = Some {| timeout := (scanInterval c * 1000)%num; repeat := true |}).
Proof.
  unfold exec. rewrite run_from_stopped.
  destruct (switched_frame false w) as (Hlog & _ & _ & Hcfg & _).
  assert (Hprint : truthy (CONFIG w !! "debuggingOn") = false →
                   printLog (switched false w) = printLog w).
  { intros Hoff. unfold switched. now rewrite logged_off. }
  generalize dependent (switched false w). intros w1 Hlog Hcfg Hprint.
  unfold bind, typed_CONFIG. rewrite Hcfg.
  destruct (as_config (CONFIG w)) as [c|]; simpl.
  - destruct (checkAndAdjust_returns c w1) as (w2 & cs & -> & Hlog2 & Hcfg2 & Hq).
    simpl. exists cs. rewrite Hlog2, Hlog, <- app_assoc, Hcfg2, Hcfg in *.
    split; [reflexivity|]. split; [reflexivity|]. split.
    + intros Hoff. rewrite Hq by exact Hoff. now apply Hprint.
    + intros c' [= <-]. split; reflexivity.
  - exists []. split; [exact Hlog|]. split; [exact Hcfg|].
    split; [exact Hprint|]. intros c [=].
Qed.

(** The state the start-up callback hands to [run], when the stored text is
    missing, does not parse, or denotes an object. *)
Lemma init_callback_run (JSON_parse : string → option json) (w : State)
    (value : option string) (loadedConfig : obj) :
  match value with
  | Some text => default (JObject ∅) (JSON_parse text)
  | None => JObject ∅
  end = JObject loadedConfig →
  init_callback JSON_parse {| value_ := value |} 0 None w
  = run (logged
           [Text (if (0 <? Object_keys_length loadedConfig)%nat
                  then "Custom configuration loaded from KVS."
                  else "No custom configuration found in KVS. Using default settings.")]
           (set_CONFIG (merge_config loadedConfig) w)).
Proof.
  intros Hloaded.
  assert (Hcase :
    match (0 =? 0)%Z, value_ {| value_ := value |} with
    | true, Some text =>
        match JSON_parse text with
        | Some v => v
        | None => JObject ∅
        end
    | _, _ => JObject ∅
    end = JObject loadedConfig).
  { simpl. destruct value as [text|]; [|exact Hloaded].
    destruct (JSON_parse text); exact Hloaded. }
  unfold init_callback. rewrite Hcase. unfold bind, modify.
  destruct (_ <? _)%nat; now rewrite debugLog_run.
Qed.

Lemma init_run (JSON_parse : string → option json) (w : State) :
  init JSON_parse w
  = init_callback JSON_parse
      {| value_ := match kvs w !! KVS_CONFIG_KEY with
                   | Some s => if String.eqb s "" then None else Some s
                   | None => None
                   end |}
      0 None (push_call (KVS_Get KVS_CONFIG_KEY) w).
Proof. reflexivity. Qed.

(** Start-up on an object, or on nothing: the merge, the line about it, and
    [run]. *)
Lemma init_loaded_object (JSON_parse : string → option json) (w : State)
    (loadedConfig : obj) :
  loaded JSON_parse w = JObject loadedConfig →
  init JSON_parse w
  = run (logged (loaded_line loadedConfig)
           (set_CONFIG (merge_config loadedConfig)
              (push_call (KVS_Get KVS_CONFIG_KEY) w))).
Proof.
  unfold loaded. intros Hloaded. rewrite init_run.
  apply init_callback_run.
  destruct (kvs w !! KVS_CONFIG_KEY) as [text|]; [|exact Hloaded].
  destruct (String.eqb text ""); exact Hloaded.
Qed.

(** Start-up on a stored [null]: the defaults are merged, then
    [Object.keys(null)] throws and the callback ends there. *)
Lemma init_loaded_null (JSON_parse : string → option json) (w : State) :
  loaded JSON_parse w = JNull →
  init JSON_parse w
  = (Throw Object_keys_of_null,
     set_CONFIG DEFAULT_CONFIG (push_call (KVS_Get KVS_CONFIG_KEY) w)).
Proof.
  unfold loaded. intros Hloaded. rewrite init_run.
  destruct (kvs w !! KVS_CONFIG_KEY) as [text|]; [|discriminate].
  destruct (String.eqb text ""); [discriminate|].
  unfold init_callback. simpl.
  destruct (JSON_parse text) as [v|]; [|discriminate].
  simpl in Hloaded. subst v.
  unfold bind, modify, throw. simpl.
  now rewrite <- merge_config_empty, merge_config_union, delete_empty,
    (left_id_L ∅ (∪)), <- merge_config_empty, merge_config_union,
    delete_empty, (left_id_L ∅ (∪)).
Qed.

(** On a stored text the parser rejects, start-up ends with the defaults
    and an empty print log: nothing tells the fault. *)
Lemma malformed_override_not_reported :
  kvs malformed_state !! KVS_CONFIG_KEY
    = Some "{maxWaterTemp: 80, debuggingOn: tr"
  ∧ fst (init rejecting malformed_state) = Return tt
  ∧ CONFIG (exec (init rejecting) malformed_state) = DEFAULT_CONFIG
  ∧ printLog (exec (init rejecting) malformed_state) = [].
Proof. repeat split; vm_compute; reflexivity. Qed.

(** C9, amended. When the text stored under the configuration key does not
    parse, start-up goes on exactly as it does when the store answers
    [null]: it returns normally, [CONFIG] is the defaults field for field,
    and nothing is printed, the fault included. *)
Theorem malformed_override_gives_defaults
    (JSON_parse : string → option json) (w : State) (text : string) :
  kvs w !! KVS_CONFIG_KEY = Some text →
  JSON_parse text = None →
  let w' := exec (init JSON_parse) w in
  init JSON_parse w
  = init_callback JSON_parse {| value_ := None |} 0 None
      (push_call (KVS_Get KVS_CONFIG_KEY) w)
  ∧ fst (init JSON_parse w) = Return tt
  ∧ CONFIG w' = DEFAULT_CONFIG
  ∧ as_config (CONFIG w') = Some default_config
  ∧ printLog w' = printLog w.
Proof.
  intros Hstored Hparse w'.
  assert (Hnull : init JSON_parse w
                  = init_callback JSON_parse {| value_ := None |} 0 None
                      (push_call (KVS_Get KVS_CONFIG_KEY) w)).
  { rewrite init_run, Hstored.
    destruct (String.eqb text ""); [reflexivity|].
    rewrite (init_callback_run _ _ (Some text) ∅)
      by (simpl; now rewrite Hparse).
    now rewrite (init_callback_run _ _ None ∅) by reflexivity. }
  split; [exact Hnull|].
  subst w'. unfold exec.
  rewrite Hnull, (init_callback_run _ _ None ∅) by reflexivity.
  rewrite merge_config_empty.
  set (w1 := logged _ _).
  assert (Hcfg1 : CONFIG w1 = DEFAULT_CONFIG)
    by (subst w1; now rewrite logged_CONFIG).
  assert (Hprint1 : printLog w1 = printLog w).
  { subst w1. rewrite logged_off; [reflexivity|]. exact DEFAULT_CONFIG_quiet. }
  destruct (run_effect w1) as (tail & _ & Hcfg & Hquiet & Htyped).
  unfold exec in Hcfg, Hquiet, Htyped.
  rewrite Hcfg, Hcfg1.
  destruct (Htyped default_config) as (Hret & _).
  { rewrite Hcfg1. exact as_config_DEFAULT_CONFIG. }
  split; [exact Hret|]. split; [reflexivity|].
  split; [exact as_config_DEFAULT_CONFIG|].
  rewrite Hquiet; [exact Hprint1|]. rewrite Hcfg1. exact DEFAULT_CONFIG_quiet.
Qed.

Lemma malformed_override_gives_defaults_witness :
  CONFIG (exec (init rejecting) malformed_state) = DEFAULT_CONFIG
  ∧ printLog (exec (init rejecting) malformed_state)
    = printLog malformed_state.
Proof.
  destruct (malformed_override_gives_defaults rejecting malformed_state
              "{maxWaterTemp: 80, debuggingOn: tr")
    as (_ & _ & Hcfg & _ & Hprint); [reflexivity | reflexivity |].
  split; [exact Hcfg | exact Hprint].
Defined.



(** * Further properties of the script *)

(** ** What every statement of the script keeps *)

Section Keeps.

Variable R : State → State → Prop.
Hypothesis R_refl : ∀ w, R w w.
Hypothesis R_trans : ∀ a b c, R a b → R b c → R a c.
Hypothesis R_print : ∀ m w, R w (push_print m w).
Hypothesis R_call : ∀ c w, R w (push_call c w).
Hypothesis R_switch : ∀ b w, R w (set_switchStatus b w).

Lemma keeps_ret {A} (a : A) : keeps R (ret a).
Proof. intros w. apply R_refl. Qed.

Lemma keeps_throw {A} (e : Error) : keeps R (throw (A:=A) e).
Proof. intros w. apply R_refl. Qed.

Lemma keeps_get {A} (f : State → A) : keeps R (get f).
Proof. intros w. apply R_refl. Qed.

Lemma keeps_bind {A B} (m : M A) (f : A → M B) :
  keeps R m → (∀ a, keeps R (f a)) → keeps R (bind m f).
Proof.
  intros Hm Hf w. specialize (Hm w). unfold exec, bind in *.
  destruct (m w) as [[a|e|] w1]; simpl in *; try assumption.
  exact (R_trans _ _ _ Hm (Hf a w1)).
Qed.

Lemma keeps_try_catch {A} (body : M A) (handler : Error → M A) :
  keeps R body → (∀ e, keeps R (handler e)) → keeps R (try_catch body handler).
Proof.
  intros Hm Hh w. specialize (Hm w). unfold exec, try_catch in *.
  destruct (body w) as [[a|e|] w1]; simpl in *; try assumption.
  exact (R_trans _ _ _ Hm (Hh e w1)).
Qed.

Lemma keeps_debugLog (m : message) : keeps R (debugLog m).
Proof.
  intros w. unfold exec. rewrite debugLog_run. unfold logged. simpl.
  destruct (truthy _); [apply R_print | apply R_refl].
Qed.

Lemma keeps_Switch_Set (id : Z) (on : bool)
    (callback : SwitchResult → Z → option string → M unit) :
  (∀ r c m, keeps R (callback r c m)) →
  keeps R (Shelly_call_Switch_Set id on callback).
Proof.
  intros Hcb. unfold Shelly_call_Switch_Set.
  apply keeps_bind; [intros w; apply R_call|intros _].
  apply keeps_bind; [intros w; apply R_switch|intros _]. apply Hcb.
Qed.

Lemma keeps_stopWaterPump : keeps R stopWaterPump.
Proof.
  apply keeps_Switch_Set. intros r c m.
  destruct (negb _); apply keeps_debugLog.
Qed.

Lemma keeps_startWaterPump : keeps R startWaterPump.
Proof.
  apply keeps_Switch_Set. intros r c m.
  destruct (negb _); apply keeps_debugLog.
Qed.

Lemma keeps_waterPumpRunning : keeps R waterPumpRunning.
Proof. apply keeps_get. Qed.

Lemma keeps_read_temperature (id : float) :
  keeps R (Shelly_getComponentStatus_Temperature id).
Proof.
  apply keeps_bind; [apply keeps_get|].
  intros [st|]; [apply keeps_ret | apply keeps_throw].
Qed.

Lemma keeps_and_then (a : bool) (b : M bool) :
  keeps R b → keeps R (and_then a b).
Proof. intros Hb. destruct a; [exact Hb | apply keeps_ret]. Qed.

Lemma keeps_checkAndAdjust (config : Config) : keeps R (checkAndAdjust config).
Proof.
  apply keeps_try_catch; [|intros e; apply keeps_debugLog].
  apply keeps_bind; [apply keeps_read_temperature|intros hotStatus].
  apply keeps_bind; [apply keeps_read_temperature|intros sourceStatus].
  apply keeps_bind; [apply keeps_debugLog|intros _].
  apply keeps_bind;
    [apply keeps_and_then, keeps_waterPumpRunning|intros [|]].
  { apply keeps_bind; [apply keeps_debugLog|intros _].
    apply keeps_stopWaterPump. }
  apply keeps_bind;
    [apply keeps_and_then, keeps_waterPumpRunning|intros [|]].
  { apply keeps_bind; [apply keeps_debugLog|intros _].
    apply keeps_stopWaterPump. }
  apply keeps_bind; [apply keeps_and_then|intros [|]].
  - apply keeps_bind; [apply keeps_waterPumpRunning|intros b; apply keeps_ret].
  - apply keeps_bind; [apply keeps_debugLog|intros _].
    apply keeps_startWaterPump.
  - apply keeps_ret.
Qed.

Lemma keeps_typed_CONFIG : keeps R typed_CONFIG.
Proof.
  intros w. unfold exec, typed_CONFIG.
  destruct (as_config (CONFIG w)); apply R_refl.
Qed.

Lemma keeps_timer_callback : keeps R timer_callback.
Proof.
  apply keeps_bind; [apply keeps_typed_CONFIG|intros c].
  apply keeps_checkAndAdjust.
Qed.

End Keeps.

(** ** One evaluation, for every state *)

Lemma grows_refl (w : State) : grows w w.
Proof.
  repeat split; try reflexivity; exists []; now rewrite app_nil_r.
Qed.

Lemma grows_trans (a b c : State) : grows a b → grows b c → grows a c.
Proof.
  intros (H1 & H2 & H3 & H4 & (cs & H5) & (ls & H6))
         (G1 & G2 & G3 & G4 & (cs' & G5) & (ls' & G6)).
  repeat split; try congruence.
  - exists (cs ++ cs'). now rewrite G5, H5, app_assoc.
  - exists (ls ++ ls'). now rewrite G6, H6, app_assoc.
Qed.

Lemma grows_print (m : message) (w : State) : grows w (push_print m w).
Proof.
  repeat split; simpl; [exists []; now rewrite app_nil_r | now exists [m]].
Qed.

Lemma grows_call (c : call) (w : State) : grows w (push_call c w).
Proof.
  repeat split; simpl; [now exists [c] | exists []; now rewrite app_nil_r].
Qed.

Lemma grows_switch (b : bool) (w : State) : grows w (set_switchStatus b w).
Proof.
  repeat split; simpl; exists []; now rewrite app_nil_r.
Qed.

Lemma checkAndAdjust_grows (config : Config) (w : State) :
  grows w (exec (checkAndAdjust config) w).
Proof.
  apply (keeps_checkAndAdjust grows grows_refl grows_trans grows_print
           grows_call grows_switch).
Qed.

(** The result, the calls and the switch of an evaluation, whether the reads
    succeed or not. *)
Lemma checkAndAdjust_summary (config : Config) (w : State) :
  checkAndAdjust config w = (Return tt, exec (checkAndAdjust config) w)
  ∧ shellyCallLog (exec (checkAndAdjust config) w)
    = shellyCallLog w ++ commands_of (decided config w)
  ∧ switchStatus (exec (checkAndAdjust config) w)
    = switch_after (decided config w) (switchStatus w).
Proof.
  unfold decided, exec.
  destruct (lookup_temperature (hotWaterTemperatureID config) (temperatures w))
    as [tank|] eqn:Htank;
    [destruct (lookup_temperature (heatingSourceTemperatureID config)
                 (temperatures w)) as [source|] eqn:Hsource|].
  - destruct (checkAndAdjust_effect _ _ _ _ Htank Hsource)
      as (w' & -> & Hlog & Hsw & _). simpl. auto.
  - rewrite (checkAndAdjust_fault config w) by now right. simpl.
    rewrite app_nil_r.
    destruct (logged_frame (fault_line (failing_sensor config w)) w)
      as (Hlog & Hsw & _). auto.
  - rewrite (checkAndAdjust_fault config w) by now left. simpl.
    rewrite app_nil_r.
    destruct (logged_frame (fault_line (failing_sensor config w)) w)
      as (Hlog & Hsw & _). auto.
Qed.

Lemma decision_rule_reverses (config : Config) (tank source : float)
    (running : bool) :
  match decision_rule config tank source running with
  | Start => running = false
  | Stop => running = true
  | Hold => True
  end.
Proof.
  unfold decision_rule.
  destruct (tank >= maxWaterTemp config)%num,
    (source <= tank + waterPumpStopDifference config)%num,
    (tank < maxWaterTemp config)%num,
    (source >= tank + waterPumpHysteresis config)%num, running;
    simpl; exact I || reflexivity.
Qed.

Lemma decided_reverses (config : Config) (w : State) :
  match decided config w with
  | Start => switchStatus w = false
  | Stop => switchStatus w = true
  | Hold => True
  end.
Proof.
  unfold decided.
  destruct (lookup_temperature (hotWaterTemperatureID config) _) as [tank|];
    [|exact I].
  destruct (lookup_temperature (heatingSourceTemperatureID config) _)
    as [source|]; [|exact I].
  apply decision_rule_reverses.
Qed.

(** X1. Whatever the state, the command one evaluation sends is the one the
    ordered rule gives on the two readings and the state of the pump: Stop at
    the maximum temperature, else Stop on a gap at or below the stop
    difference, else Start; nothing when no condition holds or when a read
    fails. The switch ends as that command leaves it. *)
Theorem evaluation_follows_ordered_rule (config : Config) (w : State) :
  evaluate config w = Some (decided config w)
  ∧ switchStatus (exec (checkAndAdjust config) w)
    = switch_after (decided config w) (switchStatus w).
Proof.
  destruct (checkAndAdjust_summary config w) as (_ & Hlog & Hsw).
  split; [|exact Hsw].
  unfold evaluate. rewrite (issued_app _ _ _ Hlog).
  apply decision_of_commands.
Qed.

(** X2. An evaluation sends at most one call, and never a redundant one:
    either it sends nothing and the switch keeps its state, or it sends one
    [Switch.Set] to switch 0 that reverses the state the switch was in. *)
Theorem command_reverses_pump_state (config : Config) (w : State) :
  (issued w (exec (checkAndAdjust config) w) = []
   ∧ switchStatus (exec (checkAndAdjust config) w) = switchStatus w)
  ∨ (issued w (exec (checkAndAdjust config) w)
     = [Switch_Set 0 (negb (switchStatus w))]
     ∧ switchStatus (exec (checkAndAdjust config) w) = negb (switchStatus w)).
Proof.
  destruct (checkAndAdjust_summary config w) as (_ & Hlog & Hsw).
  rewrite (issued_app _ _ _ Hlog), Hsw.
  pose proof (decided_reverses config w) as Hrev.
  destruct (decided config w); simpl.
  - right. now rewrite Hrev.
  - right. now rewrite Hrev.
  - now left.
Qed.

(** X3. No evaluation lets an exception escape, and none touches anything
    but the switch and the two logs: the sensor table, the store, the timer
    and [CONFIG] are as before, and both logs keep what they held. *)
Theorem evaluation_returns_and_keeps_the_rest (config : Config) (w : State) :
  fst (checkAndAdjust config w) = Return tt
  ∧ grows w (exec (checkAndAdjust config) w).
Proof.
  destruct (checkAndAdjust_summary config w) as (-> & _).
  split; [reflexivity|]. apply checkAndAdjust_grows.
Qed.

(** X4. The decision reads the sensor table and the switch and nothing
    else: two states that agree on these get the same decision and end with
    the same switch state, whatever their [CONFIG] (and so with debugging on
    or off), their logs, their store and their timer. *)
Theorem decision_ignores_logging_and_history (config : Config)
    (w1 w2 : State) :
  temperatures w1 = temperatures w2 →
  switchStatus w1 = switchStatus w2 →
  evaluate config w1 = evaluate config w2
  ∧ switchStatus (exec (checkAndAdjust config) w1)
    = switchStatus (exec (checkAndAdjust config) w2).
Proof.
  intros Htemp Hsw.
  assert (Hd : decided config w1 = decided config w2)
    by (unfold decided; now rewrite Htemp, Hsw).
  destruct (checkAndAdjust_summary config w1) as (_ & Hlog1 & Hsw1).
  destruct (checkAndAdjust_summary config w2) as (_ & Hlog2 & Hsw2).
  split.
  - unfold evaluate.
    now rewrite (issued_app _ _ _ Hlog1), (issued_app _ _ _ Hlog2), Hd.
  - now rewrite Hsw1, Hsw2, Hd, Hsw.
Qed.

Lemma decision_ignores_logging_and_history_witness :
  evaluate default_config (test_state false 40 48)
  = evaluate default_config (silent_state false 40 48)
  ∧ switchStatus (exec (checkAndAdjust default_config)
                    (test_state false 40 48))
    = switchStatus (exec (checkAndAdjust default_config)
                      (silent_state false 40 48)).
Proof.
  apply (decision_ignores_logging_and_history default_config
           (test_state false 40 48) (silent_state false 40 48));
    reflexivity.
Defined.

(** X5. With [CONFIG.debuggingOn] absent or falsy nothing is printed: an
    evaluation, a start, a stop and the whole of [run] leave the print log
    as it was. *)
Theorem silent_without_debugging (config : Config) (w : State) :
  truthy (CONFIG w !! "debuggingOn") = false →
  printLog (exec (checkAndAdjust config) w) = printLog w
  ∧ printLog (exec startWaterPump w) = printLog w
  ∧ printLog (exec stopWaterPump w) = printLog w
  ∧ printLog (exec run w) = printLog w.
Proof.
  intros Hoff. repeat split.
  - destruct (checkAndAdjust_returns config w) as (w' & cs & Hrun & _ & _ & Hq).
    unfold exec. rewrite Hrun. now apply Hq.
  - unfold exec. rewrite startWaterPump_run. unfold switched.
    now rewrite logged_off.
  - unfold exec. rewrite stopWaterPump_run. unfold switched.
    now rewrite logged_off.
  - destruct (run_effect w) as (tail & _ & _ & Hq & _). now apply Hq.
Qed.

Lemma silent_without_debugging_witness :
  printLog (exec (checkAndAdjust default_config) (silent_state false 40 48))
  = [[Text "earlier line"]]
  ∧ printLog (exec run (silent_state true 40 48)) = [[Text "earlier line"]].
Proof.
  destruct (silent_without_debugging default_config (silent_state false 40 48))
    as (H1 & _); [reflexivity|].
  destruct (silent_without_debugging default_config (silent_state true 40 48))
    as (_ & _ & _ & H2); [reflexivity|].
  split; [exact H1 | exact H2].
Defined.

(** X6. Inside the band nothing is sent. With both reads successful, a
    stopped pump whose start condition fails stays stopped, and a running
    pump below the maximum whose source is not at or below the tank reading
    plus [waterPumpStopDifference] keeps running. *)
Theorem holds_in_dead_band (config : Config) (w : State)
    (tank source : TemperatureStatus) :
  lookup_temperature (hotWaterTemperatureID config) (temperatures w)
  = Some tank →
  lookup_temperature (heatingSourceTemperatureID config) (temperatures w)
  = Some source →
  (switchStatus w = false
   ∧ (tC tank < maxWaterTemp config)%num
     && (tC source >= tC tank + waterPumpHysteresis config)%num = false)
  ∨ (switchStatus w = true
     ∧ (tC tank >= maxWaterTemp config)%num = false
     ∧ (tC source <= tC tank + waterPumpStopDifference config)%num = false) →
  evaluate config w = Some Hold
  ∧ shellyCallLog (exec (checkAndAdjust config) w) = shellyCallLog w
  ∧ switchStatus (exec (checkAndAdjust config) w) = switchStatus w.
Proof.
  intros Htank Hsource Hband.
  destruct (checkAndAdjust_summary config w) as (_ & Hlog & Hsw).
  assert (Hd : decided config w = Hold).
  { unfold decided, decision_rule. rewrite Htank, Hsource.
    destruct Hband as [(-> & ->)|(-> & -> & ->)]; simpl;
      now rewrite ?andb_false_r. }
  rewrite Hd in Hlog, Hsw. simpl in Hlog, Hsw. rewrite app_nil_r in Hlog.
  split; [|split; assumption].
  unfold evaluate. now rewrite (issued_same _ _ Hlog).
Qed.

Lemma holds_in_dead_band_witness :
  evaluate default_config (test_state false 40 45) = Some Hold
  ∧ evaluate default_config (test_state true 50 56) = Some Hold.
Proof.
  split.
  - apply (holds_in_dead_band default_config (test_state false 40 45)
             {| tC := number 40 |} {| tC := number 45 |});
      [reflexivity | reflexivity | left; split; reflexivity].
  - apply (holds_in_dead_band default_config (test_state true 50 56)
             {| tC := number 50 |} {| tC := number 56 |});
      [reflexivity | reflexivity | right; repeat split; reflexivity].
Defined.

(** X7. After an evaluation whose two reads succeed with the tank at or
    above [maxWaterTemp], the pump is off, whether it was running or not and
    whatever the source reading. *)
Theorem pump_off_after_evaluation_at_max (config : Config) (w : State)
    (tank source : TemperatureStatus) :
  lookup_temperature (hotWaterTemperatureID config) (temperatures w)
  = Some tank →
  lookup_temperature (heatingSourceTemperatureID config) (temperatures w)
  = Some source →
  (tC tank >= maxWaterTemp config)%num = true →
  switchStatus (exec (checkAndAdjust config) w) = false.
Proof.
  intros Htank Hsource Hmax.
  destruct (checkAndAdjust_summary config w) as (_ & _ & ->).
  unfold decided, decision_rule. rewrite Htank, Hsource, Hmax.
  rewrite (NumFacts.ge_not_lt _ _ Hmax).
  destruct (switchStatus w); simpl; [reflexivity|].
  now destruct (_ <= _)%num.
Qed.

Lemma pump_off_after_evaluation_at_max_witness :
  switchStatus (exec (checkAndAdjust default_config) (test_state true 70 90))
  = false
  ∧ switchStatus (exec (checkAndAdjust default_config)
                    (test_state false 70 90)) = false.
Proof.
  split.
  - apply (pump_off_after_evaluation_at_max default_config
             (test_state true 70 90) {| tC := number 70 |} {| tC := number 90 |});
      reflexivity.
  - apply (pump_off_after_evaluation_at_max default_config
             (test_state false 70 90) {| tC := number 70 |} {| tC := number 90 |});
      reflexivity.
Defined.

(** X8. [startWaterPump] and [stopWaterPump] send their call whatever state
    the pump is in, also when it is already in the state asked for; each
    returns normally, logs exactly one [Switch.Set] on switch 0, and
    [waterPumpRunning] then reads back the state that was set. The two in a
    row log both calls and leave the pump off. *)
Theorem switch_commands_are_unconditional (w : State) :
  (fst (startWaterPump w) = Return tt
   ∧ shellyCallLog (exec startWaterPump w)
     = shellyCallLog w ++ [Switch_Set 0 true]
   ∧ fst (waterPumpRunning (exec startWaterPump w)) = Return true)
  ∧ (fst (stopWaterPump w) = Return tt
     ∧ shellyCallLog (exec stopWaterPump w)
       = shellyCallLog w ++ [Switch_Set 0 false]
     ∧ fst (waterPumpRunning (exec stopWaterPump w)) = Return false)
  ∧ (shellyCallLog (exec (startWaterPump;; stopWaterPump) w)
     = shellyCallLog w ++ [Switch_Set 0 true; Switch_Set 0 false]
     ∧ fst (waterPumpRunning (exec (startWaterPump;; stopWaterPump) w))
       = Return false).
Proof.
  unfold exec, bind.
  rewrite startWaterPump_run, !stopWaterPump_run, !waterPumpRunning_run.
  simpl.
  destruct (switched_frame true w) as (Hlog1 & Hsw1 & _).
  destruct (switched_frame false w) as (Hlog2 & Hsw2 & _).
  destruct (switched_frame false (switched true w)) as (Hlog3 & Hsw3 & _).
  rewrite Hlog1, Hsw1, Hlog2, Hsw2, Hlog3, Hsw3, Hlog1, <- app_assoc.
  repeat split.
Qed.

(** ** Reads that throw *)

(** X17. When the read of the tank sensor or of the source sensor throws,
    [checkAndAdjust] catches the error and returns normally, having done
    nothing but hand to [debugLog] the text "Error: " followed by the error
    of the first read that threw: the decision is Hold, no call is sent, the
    pump keeps its state, and the line is printed exactly when debugging is
    enabled. *)
Theorem thrown_read_holds (config : Config) (w : State) :
  lookup_temperature (hotWaterTemperatureID config) (temperatures w) = None
  ∨ lookup_temperature (heatingSourceTemperatureID config) (temperatures w)
    = None →
  let line := fault_line (failing_sensor config w) in
  let w' := exec (checkAndAdjust config) w in
  checkAndAdjust config w = (Return tt, logged line w)
  ∧ evaluate config w = Some Hold
  ∧ shellyCallLog w' = shellyCallLog w
  ∧ switchStatus w' = switchStatus w
  ∧ printLog w' = (if truthy (CONFIG w !! "debuggingOn")
                   then printLog w ++ [line] else printLog w).
Proof.
  intros Hfault line w'.
  pose proof (checkAndAdjust_fault config w Hfault) as Hrun. fold line in Hrun.
  assert (Hw' : w' = logged line w) by (subst w'; unfold exec; now rewrite Hrun).
  destruct (logged_frame line w) as (Hlog & Hsw & _).
  split; [exact Hrun|]. rewrite Hw'.
  split; [|split; [exact Hlog|split; [exact Hsw|]]].
  - unfold evaluate. fold w'. rewrite Hw', (issued_same _ _ Hlog). reflexivity.
  - apply logged_printLog.
Qed.

Lemma thrown_read_holds_witness :
  evaluate default_config source_missing_state = Some Hold
  ∧ switchStatus (exec (checkAndAdjust default_config) source_missing_state)
    = true
  ∧ printLog (exec (checkAndAdjust default_config) source_missing_state)
    = [[Text "Error: "; Text "Error: ";
        Text "Mock Error: Temperature sensor with id "; Number 101;
        Text " not found."]].
Proof.
  destruct (thrown_read_holds default_config source_missing_state)
    as (_ & H1 & _ & H2 & H3).
  - right. reflexivity.
  - split; [exact H1|]. split; [exact H2|]. exact H3.
Defined.

(** ** Start-up, in full *)

Lemma prints_more_refl (w : State) : prints_more w w.
Proof. exists []. now rewrite app_nil_r. Qed.

Lemma prints_more_trans (a b c : State) :
  prints_more a b → prints_more b c → prints_more a c.
Proof.
  intros (l1 & H1) (l2 & H2). exists (l1 ++ l2).
  now rewrite H2, H1, app_assoc.
Qed.

Lemma grows_prints_more (w w' : State) : grows w w' → prints_more w w'.
Proof. intros (_ & _ & _ & _ & _ & H). exact H. Qed.

Lemma switched_prints_more (on : bool) (w : State) :
  prints_more w (switched on w).
Proof.
  unfold prints_more, switched. rewrite logged_printLog. simpl.
  destruct (truthy _).
  - eexists. reflexivity.
  - exists []. now rewrite app_nil_r.
Qed.

(** [run] on a configuration of the defaults' types: the stop, one
    evaluation, the timer. *)
Lemma run_typed (w : State) (c : Config) :
  as_config (CONFIG w) = Some c →
  run w
  = (Return tt,
     set_timer (Some {| timeout := (scanInterval c * 1000)%num;
                        repeat := true |})
       (exec (checkAndAdjust c) (switched false w))).
Proof.
  intros Hc. rewrite run_from_stopped. unfold bind at 1, typed_CONFIG.
  destruct (switched_frame false w) as (_ & _ & _ & -> & _). rewrite Hc.
  unfold bind.
  destruct (checkAndAdjust_summary c (switched false w)) as (-> & _).
  reflexivity.
Qed.

Lemma run_prints_more (w : State) : prints_more w (exec run w).
Proof.
  unfold exec. rewrite run_from_stopped.
  apply (prints_more_trans _ _ _ (switched_prints_more false w)).
  generalize (switched false w). intros w1.
  unfold bind, typed_CONFIG.
  destruct (as_config (CONFIG w1)) as [c|]; [|apply prints_more_refl].
  destruct (checkAndAdjust_summary c w1) as (-> & _). simpl.
  destruct (checkAndAdjust_grows c w1) as (_ & _ & _ & _ & _ & H). exact H.
Qed.

Lemma decided_when_stopped (c : Config) (w w1 : State) :
  temperatures w1 = temperatures w →
  switchStatus w1 = false →
  decided c w1 = if start_wanted c w then Start else Hold.
Proof.
  intros Htemp Hsw. unfold decided, start_wanted, decision_rule.
  rewrite Htemp, Hsw.
  destruct (lookup_temperature (hotWaterTemperatureID c) _) as [tank|];
    [|reflexivity].
  destruct (lookup_temperature (heatingSourceTemperatureID c) _)
    as [source|]; [|reflexivity].
  rewrite !andb_false_r, andb_true_r. reflexivity.
Qed.

Lemma run_summary (w : State) (c : Config) :
  as_config (CONFIG w) = Some c →
  fst (run w) = Return tt
  ∧ shellyCallLog (exec run w)
    = shellyCallLog w
      ++ Switch_Set 0 false
         :: (if start_wanted c w then [Switch_Set 0 true] else [])
  ∧ switchStatus (exec run w) = start_wanted c w
  ∧ timer (exec run w)
    = Some {| timeout := (scanInterval c * 1000)%num; repeat := true |}
  ∧ temperatures (exec run w) = temperatures w
  ∧ kvs (exec run w) = kvs w
  ∧ CONFIG (exec run w) = CONFIG w.
Proof.
  intros Hc. unfold exec. rewrite (run_typed w c Hc). simpl.
  destruct (switched_frame false w) as (Hlog & Hsw & Htemp & Hcfg & Hkvs & _).
  destruct (checkAndAdjust_summary c (switched false w)) as (_ & Hlog' & Hsw').
  destruct (checkAndAdjust_grows c (switched false w))
    as (Gtemp & Gcfg & Gkvs & _).
  rewrite (decided_when_stopped c w _ Htemp Hsw) in Hlog', Hsw'.
  rewrite Hlog', Hsw', Hlog, <- app_assoc, Gtemp, Gkvs, Gcfg, Htemp, Hkvs, Hcfg,
    Hsw.
  destruct (start_wanted c w); repeat split.
Qed.

(** X9. On a [CONFIG] of the defaults' types [run] returns normally having
    sent the stop and then at most a start: the pump ends running exactly
    when both reads succeed and the start condition holds on them, whatever
    state it was in before; no second stop is ever sent. The timer is armed,
    repeating, at [scanInterval * 1000], and the sensors, the store and
    [CONFIG] are as before. *)
Theorem run_leaves_pump_as_start_condition (w : State) (c : Config) :
  as_config (CONFIG w) = Some c →
  fst (run w) = Return tt
  ∧ shellyCallLog (exec run w)
    = shellyCallLog w
      ++ Switch_Set 0 false
         :: (if start_wanted c w then [Switch_Set 0 true] else [])
  ∧ switchStatus (exec run w) = start_wanted c w
  ∧ timer (exec run w)
    = Some {| timeout := (scanInterval c * 1000)%num; repeat := true |}
  ∧ temperatures (exec run w) = temperatures w
  ∧ kvs (exec run w) = kvs w
  ∧ CONFIG (exec run w) = CONFIG w.
Proof. exact (run_summary w c). Qed.

Lemma run_leaves_pump_as_start_condition_witness :
  shellyCallLog (exec run (silent_state true 40 48))
  = [KVS_Get KVS_CONFIG_KEY; Switch_Set 0 false;
     Switch_Set 0 false; Switch_Set 0 true]
  ∧ switchStatus (exec run (silent_state true 40 48)) = true
  ∧ timer (exec run (silent_state true 40 48))
    = Some {| timeout := 30000; repeat := true |}.
Proof.
  destruct (run_leaves_pump_as_start_condition (silent_state true 40 48)
              default_config) as (_ & Hlog & Hsw & Htimer & _);
    [reflexivity|].
  split; [exact Hlog|]. split; [exact Hsw | exact Htimer].
Defined.

(** X10. When the store holds a text that parses to an object, start-up
    leaves [CONFIG] as the merge of that object over the defaults, and goes
    on to [run] having handed to [debugLog] the "Custom configuration
    loaded" line for a non-empty object and the "No custom configuration
    found" line for [{}]. When the merged configuration has debugging on,
    that line is the first one start-up prints, an override being able to
    turn debugging on for this very line; when it has debugging off,
    start-up prints nothing at all. *)
Theorem init_loads_override (JSON_parse : string → option json) (w : State)
    (text : string) (loadedConfig : obj) :
  kvs w !! KVS_CONFIG_KEY = Some text →
  String.eqb text "" = false →
  JSON_parse text = Some (JObject loadedConfig) →
  let w' := exec (init JSON_parse) w in
  CONFIG w' = merge_config loadedConfig
  ∧ init JSON_parse w
    = run (logged (loaded_line loadedConfig)
             (set_CONFIG (merge_config loadedConfig)
                (push_call (KVS_Get KVS_CONFIG_KEY) w)))
  ∧ (truthy (merge_config loadedConfig !! "debuggingOn") = true →
     ∃ lines,
       printLog w' = printLog w ++ loaded_line loadedConfig :: lines)
  ∧ (truthy (merge_config loadedConfig !! "debuggingOn") = false →
     printLog w' = printLog w).
Proof.
  intros Hstored Hnonempty Hparse w'.
  assert (Hinit : init JSON_parse w
            = run (logged (loaded_line loadedConfig)
                     (set_CONFIG (merge_config loadedConfig)
                        (push_call (KVS_Get KVS_CONFIG_KEY) w)))).
  { apply init_loaded_object. unfold loaded.
    now rewrite Hstored, Hnonempty, Hparse. }
  subst w'. unfold exec. rewrite Hinit.
  set (w0 := set_CONFIG _ _). set (w1 := logged _ w0).
  assert (Hcfg1 : CONFIG w1 = merge_config loadedConfig)
    by (subst w1; now rewrite logged_CONFIG).
  assert (Hprint1 : printLog w1
            = if truthy (merge_config loadedConfig !! "debuggingOn")
              then printLog w ++ [loaded_line loadedConfig]
              else printLog w).
  { subst w1. now rewrite logged_printLog. }
  destruct (run_effect w1) as (tail & _ & Hcfg & Hquiet & _).
  destruct (run_prints_more w1) as (lines & Hlines).
  unfold exec in Hcfg, Hquiet, Hlines.
  split; [now rewrite Hcfg|]. split; [reflexivity|]. split.
  - intros Hon. exists lines.
    now rewrite Hlines, Hprint1, Hon, <- app_assoc.
  - intros Hoff. rewrite Hquiet by (now rewrite Hcfg1).
    now rewrite Hprint1, Hoff.
Qed.

Lemma init_loads_override_witness :
  CONFIG (exec (init parse_verbose) verbose_state)
  = merge_config verbose_override
  ∧ ∃ lines,
      printLog (exec (init parse_verbose) verbose_state)
      = [Text "Custom configuration loaded from KVS."] :: lines.
Proof.
  destruct (init_loads_override parse_verbose verbose_state
              "verbose override" verbose_override)
    as (Hcfg & _ & Hon & _); [reflexivity | reflexivity | reflexivity |].
  split; [exact Hcfg|].
  destruct Hon as (lines & Hlines); [reflexivity|].
  exists lines. exact Hlines.
Defined.

(** X11. When the store holds nothing under the configuration key, or the
    empty text, start-up never consults the parser and runs on the defaults:
    [CONFIG] is [DEFAULT_CONFIG], nothing is printed, the calls are the read
    of the store, the stop, and a start exactly when the start condition
    holds on the default thresholds, and the timer is armed at 30000,
    repeating. *)
Theorem init_on_empty_store (JSON_parse : string → option json) (w : State) :
  kvs w !! KVS_CONFIG_KEY = None ∨ kvs w !! KVS_CONFIG_KEY = Some "" →
  fst (init JSON_parse w) = Return tt
  ∧ CONFIG (exec (init JSON_parse) w) = DEFAULT_CONFIG
  ∧ printLog (exec (init JSON_parse) w) = printLog w
  ∧ shellyCallLog (exec (init JSON_parse) w)
    = shellyCallLog w
      ++ KVS_Get KVS_CONFIG_KEY :: Switch_Set 0 false
         :: (if start_wanted default_config w then [Switch_Set 0 true]
             else [])
  ∧ switchStatus (exec (init JSON_parse) w) = start_wanted default_config w
  ∧ timer (exec (init JSON_parse) w)
    = Some {| timeout := 30000; repeat := true |}.
Proof.
  intros Hstore.
  assert (Hnull : init JSON_parse w
                  = init_callback JSON_parse {| value_ := None |} 0 None
                      (push_call (KVS_Get KVS_CONFIG_KEY) w)).
  { rewrite init_run. now destruct Hstore as [-> | ->]. }
  unfold exec. rewrite Hnull, (init_callback_run _ _ None ∅) by reflexivity.
  rewrite merge_config_empty, logged_off by exact DEFAULT_CONFIG_quiet.
  set (w1 := set_CONFIG _ _).
  destruct (run_summary w1 default_config as_config_DEFAULT_CONFIG)
    as (Hret & Hlog & Hsw & Htimer & _ & _ & Hcfg).
  destruct (run_effect w1) as (_ & _ & _ & Hquiet & _).
  unfold exec in *.
  rewrite Hret, Hcfg, Hlog, Hsw, Htimer, Hquiet by exact DEFAULT_CONFIG_quiet.
  subst w1. simpl. rewrite <- app_assoc. repeat split.
Qed.

Lemma init_on_empty_store_witness :
  CONFIG (exec (init parse_verbose) fresh_state) = DEFAULT_CONFIG
  ∧ shellyCallLog (exec (init parse_verbose) fresh_state)
    = [KVS_Get KVS_CONFIG_KEY; Switch_Set 0 false; Switch_Set 0 true]
  ∧ switchStatus (exec (init parse_verbose) fresh_state) = true.
Proof.
  destruct (init_on_empty_store parse_verbose fresh_state)
    as (_ & Hcfg & _ & Hlog & Hsw & _); [left; reflexivity|].
  split; [exact Hcfg|]. split; [exact Hlog | exact Hsw].
Defined.

(** X18. When the store holds a text that parses to [null], start-up does
    not reach [run]: the defaults are merged into [CONFIG], then
    [Object.keys(null)] throws out of the callback. The read of the store is
    the only call: no stop is sent and the switch stays as it was, no
    evaluation is made, nothing is printed and no timer is armed. *)
Theorem init_on_stored_null (JSON_parse : string → option json) (w : State)
    (text : string) :
  kvs w !! KVS_CONFIG_KEY = Some text →
  String.eqb text "" = false →
  JSON_parse text = Some JNull →
  let w' := exec (init JSON_parse) w in
  fst (init JSON_parse w) = Throw Object_keys_of_null
  ∧ CONFIG w' = DEFAULT_CONFIG
  ∧ shellyCallLog w' = shellyCallLog w ++ [KVS_Get KVS_CONFIG_KEY]
  ∧ switchStatus w' = switchStatus w
  ∧ printLog w' = printLog w
  ∧ timer w' = timer w.
Proof.
  intros Hstored Hnonempty Hparse w'. subst w'. unfold exec.
  rewrite init_loaded_null; [repeat split|].
  unfold loaded. now rewrite Hstored, Hnonempty, Hparse.
Qed.

Lemma init_on_stored_null_witness :
  fst (init parse_null null_store_state) = Throw Object_keys_of_null
  ∧ shellyCallLog (exec (init parse_null) null_store_state)
    = [KVS_Get KVS_CONFIG_KEY]
  ∧ switchStatus (exec (init parse_null) null_store_state) = true
  ∧ timer (exec (init parse_null) null_store_state) = None.
Proof.
  destruct (init_on_stored_null parse_null null_store_state "null")
    as (Hthrow & _ & Hlog & Hsw & _ & Htimer);
    [reflexivity | reflexivity | reflexivity |].
  split; [exact Hthrow|]. split; [exact Hlog|].
  split; [exact Hsw | exact Htimer].
Defined.

(** ** The merge, for every override *)

(** X12. For every override, each name the script reads is defined in the
    merged configuration, with the override's value when the override has
    the name and the default otherwise; a ["__proto__"] entry of the
    override does not become a property of the merged object; and merging
    the result again changes nothing. *)
Theorem merge_override_wins_defaults_remain (overrides : obj) :
  Forall (λ name,
            is_Some (merge_config overrides !! name)
            ∧ merge_config overrides !! name
              = match overrides !! name with
                | Some v => Some v
                | None => DEFAULT_CONFIG !! name
                end) recognized
  ∧ merge_config overrides !! "__proto__" = None
  ∧ merge_config (merge_config overrides) = merge_config overrides.
Proof.
  assert (Hproto : merge_config overrides !! "__proto__" = None).
  { now rewrite merge_config_lookup, lookup_delete_eq,
      DEFAULT_CONFIG_no_proto. }
  split; [|split; [exact Hproto|]].
  - apply Forall_forall. intros name Hname.
    rewrite (merge_config_lookup_recognized _ _ Hname).
    split; [|reflexivity].
    destruct (overrides !! name); [eauto|].
    revert Hname. unfold recognized. rewrite !elem_of_cons, elem_of_nil.
    intros H. repeat destruct H as [-> | H]; [vm_compute; eauto ..|tauto].
  - rewrite (merge_config_union (merge_config overrides)).
    rewrite (delete_id _ _ Hproto), merge_config_union.
    now rewrite <- (assoc_L (∪)), (idemp_L (∪) DEFAULT_CONFIG).
Qed.

(** ** The timer firing again and again *)

Lemma alternating_app (running : bool) (cs1 cs2 : list call) :
  alternating running (cs1 ++ cs2)
  = alternating running cs1
    && alternating (switch_after_calls running cs1) cs2.
Proof.
  revert running. induction cs1 as [|[key|id on] cs1 IH]; intros running;
    simpl; [reflexivity | reflexivity |].
  rewrite IH. now rewrite !andb_assoc.
Qed.

Lemma switch_after_calls_app (running : bool) (cs1 cs2 : list call) :
  switch_after_calls running (cs1 ++ cs2)
  = switch_after_calls (switch_after_calls running cs1) cs2.
Proof.
  revert running. induction cs1 as [|[key|id on] cs1 IH]; intros running;
    simpl; auto.
Qed.

(** One firing: it throws nothing, keeps [CONFIG], the store and the timer,
    and sends nothing or the one call that reverses the switch. *)
Lemma tick_step (readings : list (float * TemperatureStatus)) (w : State) :
  (∀ e, fst (tick readings w) ≠ Throw e)
  ∧ (is_Some (as_config (CONFIG w)) → fst (tick readings w) = Return tt)
  ∧ CONFIG (exec (tick readings) w) = CONFIG w
  ∧ kvs (exec (tick readings) w) = kvs w
  ∧ timer (exec (tick readings) w) = timer w
  ∧ ∃ cs, shellyCallLog (exec (tick readings) w) = shellyCallLog w ++ cs
      ∧ alternating (switchStatus w) cs = true
      ∧ switchStatus (exec (tick readings) w)
        = switch_after_calls (switchStatus w) cs.
Proof.
  unfold exec, tick, timer_callback, bind, modify, typed_CONFIG. simpl.
  destruct (as_config (CONFIG w)) as [c|] eqn:Hc; simpl.
  - set (w0 := set_temperatures readings w).
    destruct (checkAndAdjust_summary c w0) as (Hrun & Hlog & Hsw).
    destruct (checkAndAdjust_grows c w0) as (_ & Gcfg & Gkvs & Gtimer & _).
    pose proof (decided_reverses c w0) as Hrev.
    rewrite Hrun. simpl.
    split; [discriminate|]. split; [reflexivity|].
    split; [exact Gcfg|]. split; [exact Gkvs|]. split; [exact Gtimer|].
    exists (commands_of (decided c w0)). split; [exact Hlog|].
    rewrite Hsw. change (switchStatus w0) with (switchStatus w) in *.
    destruct (decided c w0); simpl; rewrite ?Hrev; split; reflexivity.
  - split; [discriminate|]. split; [intros [c' [=]]|].
    repeat split. exists []. rewrite app_nil_r. repeat split.
Qed.

(** X13. However often the timer fires and whatever the sensors read in
    between, no firing throws, [CONFIG], the store and the timer stay as
    they were, and the calls sent are all [Switch.Set] on switch 0 and
    alternate: each one reverses the state the previous one left, the first
    one the state the pump was in. The pump ends in the state the last call
    set. On a [CONFIG] of the defaults' types every firing returns
    normally. *)
Theorem timer_firings_alternate_commands
    (tables : list (list (float * TemperatureStatus))) (w : State) :
  (∀ e, fst (ticks tables w) ≠ Throw e)
  ∧ (is_Some (as_config (CONFIG w)) → fst (ticks tables w) = Return tt)
  ∧ CONFIG (exec (ticks tables) w) = CONFIG w
  ∧ kvs (exec (ticks tables) w) = kvs w
  ∧ timer (exec (ticks tables) w) = timer w
  ∧ ∃ cs, shellyCallLog (exec (ticks tables) w) = shellyCallLog w ++ cs
      ∧ alternating (switchStatus w) cs = true
      ∧ switchStatus (exec (ticks tables) w)
        = switch_after_calls (switchStatus w) cs.
Proof.
  revert w. induction tables as [|readings rest IH]; intros w.
  - simpl. split; [discriminate|]. split; [reflexivity|].
    repeat split. exists []. rewrite app_nil_r. repeat split.
  - destruct (tick_step readings w)
      as (Hthrow & Hret & Hcfg & Hkvs & Htimer & cs & Hlog & Halt & Hsw).
    unfold exec in *. simpl ticks. unfold bind.
    destruct (tick readings w) as [[[]|e|] w1] eqn:Htick; simpl in *.
    + destruct (IH w1)
        as (IHthrow & IHret & IHcfg & IHkvs & IHtimer & cs' & IHlog
            & IHalt & IHsw).
      split; [exact IHthrow|].
      split; [intros Hc; apply IHret; now rewrite Hcfg|].
      split; [congruence|]. split; [congruence|]. split; [congruence|].
      exists (cs ++ cs'). rewrite IHlog, Hlog, app_assoc.
      split; [reflexivity|].
      rewrite alternating_app, switch_after_calls_app, Halt, <- Hsw.
      split; [exact IHalt | exact IHsw].
    + exfalso. exact (Hthrow e eq_refl).
    + split; [discriminate|].
      split; [intros Hc; specialize (Hret Hc); discriminate|].
      split; [exact Hcfg|]. split; [exact Hkvs|]. split; [exact Htimer|].
      exists cs. auto.
Qed.

Example three_firings :
  issued (silent_state false 0 0) (exec (ticks three_tables)
                                     (silent_state false 0 0))
  = [Switch_Set 0 true; Switch_Set 0 false]
  ∧ switchStatus (exec (ticks three_tables) (silent_state false 0 0)) = false.
Proof. split; vm_compute; reflexivity. Qed.

(** ** What an evaluation prints with debugging on *)

Lemma logged_on (m : message) (w : State) :
  truthy (CONFIG w !! "debuggingOn") = true → logged m w = push_print m w.
Proof. unfold logged. now intros ->. Qed.

(** X14. With debugging on and both reads successful, an evaluation prints
    the two readings first; when it sends a command it then prints the
    reason (the maximum temperature when the tank is at or above it, the low
    difference otherwise, the hot source for a start) and the confirmation
    of the switch, and when it holds it prints nothing more. *)
Theorem verbose_evaluation_trace (config : Config) (w : State)
    (tank source : TemperatureStatus) :
  lookup_temperature (hotWaterTemperatureID config) (temperatures w)
  = Some tank →
  lookup_temperature (heatingSourceTemperatureID config) (temperatures w)
  = Some source →
  truthy (CONFIG w !! "debuggingOn") = true →
  printLog (exec (checkAndAdjust config) w)
  = printLog w
    ++ readings_line (tC tank) (tC source)
       :: announcement config (tC tank) (tC source) (switchStatus w).
Proof.
  intros Htank Hsource Hon.
  unfold exec, announcement, decision_rule, readings_line, checkAndAdjust,
    try_catch, bind, and_then, ret.
  rewrite read_temperature_run, Htank, read_temperature_run, Hsource,
    debugLog_run, (logged_on _ _ Hon).
  destruct (tC tank >= maxWaterTemp config)%num;
    destruct (tC source <= tC tank + waterPumpStopDifference config)%num;
    destruct (tC tank < maxWaterTemp config)%num;
    destruct (tC source >= tC tank + waterPumpHysteresis config)%num;
    rewrite ?waterPumpRunning_run; simpl;
    destruct (switchStatus w) eqn:Hsw; simpl;
    repeat (rewrite ?waterPumpRunning_run, ?debugLog_run, ?stopWaterPump_run,
              ?startWaterPump_run, ?Hsw; unfold switched;
            rewrite ?logged_on
              by (simpl; repeat (rewrite logged_CONFIG; simpl); exact Hon);
            simpl);
    rewrite <- ?app_assoc; reflexivity.
Qed.

Lemma verbose_evaluation_trace_witness :
  printLog (exec (checkAndAdjust default_config) (test_state true 65 80))
  = [ [Text "Storage Tank Temp: "; Number 65;
       Text "°C, Heating Source Temp: "; Number 80; Text "°C"];
      [Text "Storage tank at maximum temperature ("; Number 65;
       Text "°C), stopping pump..."];
      [Text "Water pump was stopped successfully."] ].
Proof.
  apply (verbose_evaluation_trace default_config (test_state true 65 80)
           {| tC := number 65 |} {| tC := number 80 |}); reflexivity.
Defined.

(** ** Readings that are not numbers *)

Module NanFacts.

Import SpecFloat.

Lemma SFcompare_refl (x : spec_float) :
  x ≠ S754_nan → SFcompare x x = Some Eq.
Proof.
  destruct x as [s|s| |s m e]; simpl; try congruence; intros _.
  - now destruct s.
  - destruct s; rewrite Z.compare_refl, Pos.compare_cont_refl; reflexivity.
Qed.

Lemma is_nan_spec (x : float) :
  PrimFloat.is_nan x = true → Prim2SF x = S754_nan.
Proof.
  unfold PrimFloat.is_nan. rewrite FloatAxioms.eqb_spec. unfold SFeqb.
  intros H.
  destruct (Prim2SF x) eqn:E; try reflexivity;
    rewrite SFcompare_refl in H by congruence; discriminate.
Qed.

Lemma nan_add_l (x y : float) :
  PrimFloat.is_nan x = true → Prim2SF (PrimFloat.add x y) = S754_nan.
Proof.
  intros H. rewrite add_spec, (is_nan_spec x H). reflexivity.
Qed.

(** Every comparison with NaN on a side is false. *)
Lemma nan_compare (x y : float) :
  Prim2SF x = S754_nan →
  (x >= y)%num = false ∧ (y >= x)%num = false
  ∧ (x <= y)%num = false ∧ (y <= x)%num = false
  ∧ (x < y)%num = false ∧ (y < x)%num = false.
Proof.
  intros H. unfold Num.ge, Num.le, Num.lt.
  rewrite !leb_spec, !ltb_spec, H. unfold SFleb, SFltb. simpl.
  destruct (Prim2SF y); repeat split.
Qed.

End NanFacts.

(** X15. A reading that is NaN never starts the pump. With both reads
    successful, a NaN tank reading makes every condition false and nothing
    is sent; a NaN source reading leaves only the maximum-temperature stop,
    which is sent when the tank is at or above [maxWaterTemp] and the pump
    runs, and nothing is sent otherwise. *)
Theorem nan_reading_never_starts (config : Config) (w : State)
    (tank source : TemperatureStatus) :
  lookup_temperature (hotWaterTemperatureID config) (temperatures w)
  = Some tank →
  lookup_temperature (heatingSourceTemperatureID config) (temperatures w)
  = Some source →
  PrimFloat.is_nan (tC tank) = true ∨ PrimFloat.is_nan (tC source) = true →
  evaluate config w
  = Some (if (tC tank >= maxWaterTemp config)%num && switchStatus w
          then Stop else Hold)
  ∧ (PrimFloat.is_nan (tC tank) = true → evaluate config w = Some Hold).
Proof.
  intros Htank Hsource Hnan.
  rewrite (evaluate_decision_rule _ _ _ _ Htank Hsource).
  unfold decision_rule.
  assert (Htail :
    (tC source <= tC tank + waterPumpStopDifference config)%num = false
    ∧ (tC tank < maxWaterTemp config)%num
      && (tC source >= tC tank + waterPumpHysteresis config)%num = false).
  { destruct Hnan as [Hn|Hn].
    - destruct (NanFacts.nan_compare _ (tC source)
                  (NanFacts.nan_add_l _ (waterPumpStopDifference config) Hn))
        as (_ & _ & _ & -> & _).
      destruct (NanFacts.nan_compare _ (maxWaterTemp config)
                  (NanFacts.is_nan_spec _ Hn)) as (_ & _ & _ & _ & -> & _).
      split; reflexivity.
    - destruct (NanFacts.nan_compare _
                  (PrimFloat.add (tC tank) (waterPumpStopDifference config))
                  (NanFacts.is_nan_spec _ Hn)) as (_ & _ & -> & _).
      destruct (NanFacts.nan_compare _
                  (PrimFloat.add (tC tank) (waterPumpHysteresis config))
                  (NanFacts.is_nan_spec _ Hn)) as (-> & _).
      split; [reflexivity | apply andb_false_r]. }
  destruct Htail as (-> & ->). simpl.
  split; [now destruct (_ && _)|].
  intros Hn.
  destruct (NanFacts.nan_compare _ (maxWaterTemp config)
              (NanFacts.is_nan_spec _ Hn)) as (-> & _).
  reflexivity.
Qed.

Lemma nan_reading_never_starts_witness :
  evaluate default_config (test_state false PrimFloat.nan 90) = Some Hold
  ∧ evaluate default_config (test_state true 70 PrimFloat.nan) = Some Stop.
Proof.
  split.
  - apply (nan_reading_never_starts default_config
             (test_state false PrimFloat.nan 90)
             {| tC := number PrimFloat.nan |} {| tC := number 90 |});
      [reflexivity | reflexivity | left; reflexivity | reflexivity].
  - apply (nan_reading_never_starts default_config
             (test_state true 70 PrimFloat.nan)
             {| tC := number 70 |} {| tC := number PrimFloat.nan |});
      [reflexivity | reflexivity | right; reflexivity].
Defined.

(** ** The assertions *)

(** X16. [assertTrue] passes on the boolean [true] and on nothing else: a
    truthy number or text makes it throw like any other value. It changes
    no state either way. [assertEquals] of a NaN with itself throws, and the
    two zeros pass as equal. *)
Theorem assertTrue_accepts_only_true (currentTestName message : string)
    (actual : primitive) (w : State) :
  (fst (assertTrue currentTestName actual message w) = Return tt
   ↔ actual = PBoolean true)
  ∧ (actual ≠ PBoolean true →
     ∃ e, fst (assertTrue currentTestName actual message w) = Throw e)
  ∧ exec (assertTrue currentTestName actual message) w = w
  ∧ (∀ x, PrimFloat.is_nan x = true →
       ∃ e, fst (assertEquals currentTestName (PNumber x) (PNumber x)
                   message w) = Throw e)
  ∧ fst (assertEquals currentTestName (PNumber 0) (PNumber (-0)) message w)
    = Return tt.
Proof.
  unfold assertTrue, assertEquals, exec, throw, ret.
  split; [|split; [|split; [|split]]].
  - destruct actual as [| |[|]|x|s]; simpl; split; congruence.
  - destruct actual as [| |[|]|x|s]; simpl; intros H; eauto; congruence.
  - now destruct (negb _).
  - intros x Hnan. unfold PrimFloat.is_nan in Hnan. simpl.
    rewrite Hnan. eauto.
  - reflexivity.
Qed.
